(** * Plan execution and agent invocation of the supervisor

    A shallow embedding of [app/executor.py] and [app/agent_caller.py]:
    the input resolver, the agent invoker and the plan executor, with the
    properties the specification states about them.

    Python exceptions are values of [py_result]; the step-output ledger
    ([Dict[int, AgentResponse]]) is a [gmap Z]; the two things the code
    asks of its environment on every invocation, a fresh [uuid.uuid4()]
    and the reply to [client.post], are read from a [CallEnv]. *)

From Stdlib Require Import ZArith Ascii String DecimalString DecimalPos.
From stdpp Require Import gmap strings list fin_maps.

Local Open Scope string_scope.
Local Open Scope Z_scope.

(** ** Python results *)

Inductive exn : Type :=
| ValueError (msg : string)
| KeyError (msg : string)
| IndexError (msg : string)
| AttributeError (msg : string)
| OtherException (msg : string).

Inductive py_result (A : Type) : Type :=
| Ok (a : A)
| Raise (e : exn).
Arguments Ok {A} a.
Arguments Raise {A} e.

#[global] Instance py_ret : MRet py_result := @Ok.

#[global] Instance py_bind : MBind py_result := λ A B k r,
  match r with
  | Ok a => k a
  | Raise e => Raise e
  end.

(** [str(exc)] *)
Definition exn_str (e : exn) : string :=
  match e with
  | ValueError m | KeyError m | IndexError m | AttributeError m
  | OtherException m => m
  end.

(** [l[i]] on a Python list. *)
Definition py_index {A} (l : list A) (i : nat) : py_result A :=
  match l !! i with
  | Some a => Ok a
  | None => Raise (IndexError "list index out of range")
  end.

(** ** Strings *)

(** [s.split(c)] for a one-character separator: never the empty list. *)
Fixpoint split_on (c : ascii) (s : string) : list string :=
  match s with
  | EmptyString => [EmptyString]
  | String a s' =>
      if Ascii.eqb a c then EmptyString :: split_on c s'
      else match split_on c s' with
           | [] => [String a EmptyString]
           | h :: t => String a h :: t
           end
  end.

Definition startswith (s p : string) : bool := String.prefix p s.

Definition string_of_Z (z : Z) : string := NilZero.string_of_int (Z.to_int z).

(** A character of a string is a code point below 256. The white space
    [int()] skips around a number: TAB..CR and SPACE, and the two spaces
    above 127, NEL (U+0085) and NBSP (U+00A0); FS..US are not skipped. *)
Definition is_space (a : ascii) : bool :=
  let n := nat_of_ascii a in
  ((9 <=? n)%nat && (n <=? 13)%nat) || (n =? 32)%nat
  || (n =? 133)%nat || (n =? 160)%nat.

Fixpoint lstrip (s : string) : string :=
  match s with
  | EmptyString => EmptyString
  | String a s' => if is_space a then lstrip s' else s
  end.

Fixpoint rstrip (s : string) : string :=
  match s with
  | EmptyString => EmptyString
  | String a s' =>
      match rstrip s' with
      | EmptyString => if is_space a then EmptyString else String a EmptyString
      | r => String a r
      end
  end.

Definition digit_val (a : ascii) : option Z :=
  let n := nat_of_ascii a in
  if ((48 <=? n)%nat && (n <=? 57)%nat) then Some (Z.of_nat (n - 48)) else None.

(** Decimal digits with single underscores between digits ([1_000]). *)
Fixpoint digits_acc (acc : Z) (after_digit : bool) (s : string) : option Z :=
  match s with
  | EmptyString => if after_digit then Some acc else None
  | String a s' =>
      match digit_val a with
      | Some d => digits_acc (10 * acc + d) true s'
      | None =>
          if Ascii.eqb a "_"%char && after_digit then digits_acc acc false s'
          else None
      end
  end.

(** [int(s)] on text of code points below 256, whose only decimal digits
    are [0]..[9]: surrounding white space, an optional sign, digits;
    [ValueError] otherwise. *)
Definition py_int (s : string) : py_result Z :=
  let t := rstrip (lstrip s) in
  let r :=
    match t with
    | String "+" d => digits_acc 0 false d
    | String "-" d => Z.opp <$> digits_acc 0 false d
    | _ => digits_acc 0 false t
    end in
  match r with
  | Some z => Ok z
  | None => Raise (ValueError ("invalid literal for int() with base 10: " +:+ s))
  end.

(** ** Data model

    Modelled from the spec: [app/models.py] is not among the sources; the
    records carry the fields section 3 of the specification lists and the
    code reads or writes. *)

(** The payload of [OutputModel.result] ([Any]): the scalars. *)
Inductive py_value : Type :=
| PyNone
| PyBool (b : bool)
| PyInt (z : Z)
| PyStr (s : string).

(** [str(v)] *)
Definition py_str (v : py_value) : string :=
  match v with
  | PyNone => "None"
  | PyBool true => "True"
  | PyBool false => "False"
  | PyInt z => string_of_Z z
  | PyStr s => s
  end.

Local Set Warnings "-register-all".

(** JSON-like values of the handshake's [input] mapping; a dict keeps its
    insertion order. *)
Inductive json : Type :=
| JStr (s : string)
| JObj (kvs : list (string * json)).

Module AgentMetadata.
Record t : Type := mk
  { name : string; type : string; endpoint : option string; timeout_ms : Z }.
End AgentMetadata.

Module Step.
Record t : Type := mk
  { step_id : Z; agent : string; intent : string; input_source : string }.
End Step.

Module ErrorModel.
Record t : Type := mk { type : string; message : string }.
End ErrorModel.

Module OutputModel.
Record t : Type := mk { result : py_value }.
End OutputModel.

Module AgentResponse.
Record t : Type := mk
  { request_id : string; agent_name : string; status : string;
    output : option OutputModel.t; error : option ErrorModel.t }.
End AgentResponse.

Module UsedAgentEntry.
Record t : Type := mk { name : string; intent : string; status : string }.
End UsedAgentEntry.

(** The context mapping the server builds; [file_uploads] is [None] when
    the key is missing, and every upload is a [Dict[str, str]]. *)
Module Context.
Record t : Type := mk
  { user_id : string; conversation_id : string; timestamp : string;
    file_uploads : option (list (gmap string string)) }.
End Context.

Module AgentRequest.
Record t : Type := mk
  { request_id : string; agent_name : string; intent : string;
    input : json; context : Context.t }.
End AgentRequest.

(** ** Input resolver ([executor.py], [resolve_input]) *)

(** The resolver over the interpreter's [int], of which it uses that it
    returns an integer or raises [ValueError]. *)
Definition resolve_input_with (int : string → py_result Z)
    (input_source user_query : string)
    (step_outputs : gmap Z AgentResponse.t) : py_result string :=
  if String.eqb input_source "user_query" then Ok user_query
  else if startswith input_source "step:" then
    let parts := split_on ":" input_source in
    if (2 <=? length parts)%nat then
      p1 ← py_index parts 1;
      step_id_str ← py_index (split_on "." p1) 0;
      let attempt :=
        step_id ← int step_id_str;
        match step_outputs !! step_id with
        | Some prior =>
            match AgentResponse.output prior with
            | Some o => Ok (Some (py_str (OutputModel.result o)))
            | None => Ok None
            end
        | None => Ok None
        end in
      match attempt with
      | Ok (Some t) => Ok t
      | Ok None => Ok user_query
      | Raise (ValueError _) => Ok user_query
      | Raise e => Raise e
      end
    else Ok user_query
  else Ok user_query.

Definition resolve_input : string → string → gmap Z AgentResponse.t → py_result string :=
  resolve_input_with py_int.

(** ** Agent invoker ([agent_caller.py], [call_agent]) *)

(** What [client.post] can do: raise (connection failure, timeout), or
    answer with a status code and a body; decoding the body into an
    [AgentResponse] either gives a response or raises. *)
Inductive reply_body : Type :=
| Parsed (r : AgentResponse.t)
| Malformed (e : exn).

Inductive http_outcome : Type :=
| Fault (e : exn)
| Reply (status_code : Z) (body : reply_body).

(** The environment of one invocation. *)
Record CallEnv : Type := mkCallEnv
  { uuid4 : string;
    post : string → Z → AgentRequest.t → http_outcome }.

(** A request handed to [client.post]. *)
Record Dispatch : Type := mkDispatch
  { to : string; deadline_ms : Z; body : AgentRequest.t }.

(** [d[k] = v] *)
Fixpoint dict_set (k : string) (v : json) (d : list (string * json))
    : list (string * json) :=
  match d with
  | [] => [(k, v)]
  | (k', v') :: d' =>
      if String.eqb k' k then (k, v) :: d' else (k', v') :: dict_set k v d'
  end.

Fixpoint dict_get (k : string) (d : list (string * json)) : option json :=
  match d with
  | [] => None
  | (k', v') :: d' => if String.eqb k' k then Some v' else dict_get k d'
  end.

Definition str_truthy (s : string) : bool := negb (String.eqb s "").

(** [first_file.get(key, fallback)] *)
Definition upload_field (first_file : gmap string string) (key fallback : string)
    : string :=
  default fallback (first_file !! key).

(** Lines 40-63: the language tag, and the first upload when its base64
    payload is not empty. *)
Definition build_metadata (context : Context.t) : list (string * json) :=
  let metadata := [("language", JStr "en"); ("extra", JObj [])] in
  let file_uploads := default [] (Context.file_uploads context) in
  match file_uploads with
  | first_file :: _ =>
      let base64_data := upload_field first_file "base64_data" "" in
      if str_truthy base64_data then
        let metadata := dict_set "file_base64" (JStr base64_data) metadata in
        let metadata :=
          dict_set "mime_type"
            (JStr (upload_field first_file "mime_type" "application/octet-stream"))
            metadata in
        dict_set "filename"
          (JStr (upload_field first_file "filename" "uploaded_file")) metadata
      else metadata
  | [] => metadata
  end.

(** Lines 65-71. *)
Definition build_handshake (request_id : string) (agent_meta : AgentMetadata.t)
    (intent text : string) (context : Context.t) : AgentRequest.t :=
  AgentRequest.mk request_id (AgentMetadata.name agent_meta) intent
    (JObj [("text", JStr text); ("metadata", JObj (build_metadata context))])
    context.

Definition error_response (request_id : string) (agent_meta : AgentMetadata.t)
    (type message : string) : AgentResponse.t :=
  AgentResponse.mk request_id (AgentMetadata.name agent_meta) "error" None
    (Some (ErrorModel.mk type message)).

Definition endpoint_truthy (agent_meta : AgentMetadata.t) : bool :=
  match AgentMetadata.endpoint agent_meta with
  | Some e => str_truthy e
  | None => false
  end.

Definition endpoint_str (agent_meta : AgentMetadata.t) : string :=
  default "None" (AgentMetadata.endpoint agent_meta).

(** The body of the [try] of lines 75-88. *)
Definition http_exchange (E : CallEnv) (request_id : string)
    (agent_meta : AgentMetadata.t) (handshake : AgentRequest.t)
    : py_result AgentResponse.t :=
  match post E (endpoint_str agent_meta) (AgentMetadata.timeout_ms agent_meta)
          handshake with
  | Fault e => Raise e
  | Reply status_code body =>
      if negb (status_code =? 200) then
        Ok (error_response request_id agent_meta "http_error"
              ("HTTP " +:+ string_of_Z status_code +:+ " calling "
                 +:+ endpoint_str agent_meta))
      else
        match body with
        | Parsed r => Ok r
        | Malformed e => Raise e
        end
  end.

(** [httpx] says whether the import of the HTTP client succeeded; the
    metadata is [None] when the caller passes Python's [None]. The result
    pairs the requests handed to the transport with what the call returns
    or raises. [custom_input] is a parameter of the function and is not
    read by its body. *)
Definition call_agent (httpx : bool) (E : CallEnv)
    (agent_meta : option AgentMetadata.t) (intent text : string)
    (context : Context.t) (custom_input : option json)
    : list Dispatch * py_result AgentResponse.t :=
  let request_id := uuid4 E in
  match agent_meta with
  | None =>
      ([], Raise (AttributeError "'NoneType' object has no attribute 'name'"))
  | Some agent_meta =>
      let handshake := build_handshake request_id agent_meta intent text context in
      let is_http := String.eqb (AgentMetadata.type agent_meta) "http" in
      if is_http && endpoint_truthy agent_meta && httpx then
        ([mkDispatch (endpoint_str agent_meta)
            (AgentMetadata.timeout_ms agent_meta) handshake],
         match http_exchange E request_id agent_meta handshake with
         | Ok r => Ok r
         | Raise exc =>
             Ok (error_response request_id agent_meta "network_error" (exn_str exc))
         end)
      else if is_http && negb httpx then
        ([], Ok (error_response request_id agent_meta "config_error"
                   "httpx not installed for HTTP agent calls"))
      else if String.eqb (AgentMetadata.type agent_meta) "cli" then
        ([], Ok (error_response request_id agent_meta "not_implemented"
                   "CLI agent execution is not implemented"))
      else
        ([], Ok (error_response request_id agent_meta "config_error"
                   "Agent endpoint/command not configured"))
  end.

(** ** Registry lookup

    Modelled from the spec: [app/registry.py] ([find_agent_by_name]) is not
    among the sources. The lookup is by name; what it does when no entry
    carries the name is the parameter [on_missing]: return a value (a
    metadata value that signals "not found", or [None]) or raise (the
    executor's own handler names [KeyError]). *)
Definition find_agent_by_name
    (on_missing : string → py_result (option AgentMetadata.t))
    (name : string) (registry : list AgentMetadata.t)
    : py_result (option AgentMetadata.t) :=
  match List.find (λ m, String.eqb (AgentMetadata.name m) name) registry with
  | Some m => Ok (Some m)
  | None => on_missing name
  end.

(** No entry of the registry carries the name. *)
Definition absent (name : string) (registry : list AgentMetadata.t) : Prop :=
  List.find (λ m, String.eqb (AgentMetadata.name m) name) registry = None.

(** [agent_meta.name] on a value that may be [None]. *)
Definition meta_name (agent_meta : option AgentMetadata.t) : py_result string :=
  match agent_meta with
  | Some m => Ok (AgentMetadata.name m)
  | None => Raise (AttributeError "'NoneType' object has no attribute 'name'")
  end.

(** ** Plan executor ([executor.py], [execute_plan]) *)

(** Where in the run an invocation happens: the [k]-th step of the plan,
    or the chained call that follows it. *)
Inductive Site : Type :=
| Primary (k : nat)
| Chained (k : nat).

(** The two accumulators of [execute_plan], and the requests dispatched so
    far. *)
Record ExecState : Type := mkExecState
  { step_outputs : gmap Z AgentResponse.t;
    used_agents : list UsedAgentEntry.t;
    wire : list Dispatch }.

Definition initial_state : ExecState := mkExecState ∅ [] [].

Definition max_list (l : list Z) : option Z :=
  match l with
  | [] => None
  | x :: l' => Some (foldr Z.max x l')
  end.

(** [max(step_outputs.keys()) + 1 if step_outputs else 0] *)
Definition next_step_id (step_outputs : gmap Z AgentResponse.t) : Z :=
  match max_list (map_to_list step_outputs).*1 with
  | Some m => m + 1
  | None => 0
  end.

Definition trigger_payload : json := JObj [("trigger", JStr "database_update")].

Section Executor.
Variable httpx : bool.
Variable on_missing : string → py_result (option AgentMetadata.t).
Variable env : Site → CallEnv.
Variable query : string.
Variable registry : list AgentMetadata.t.
Variable context : Context.t.

(** The body of the [try] of lines 65-84: the state it leaves, and how it
    ends. *)
Definition chain_body (k : nat) (st : ExecState) : ExecState * py_result unit :=
  match find_agent_by_name on_missing "task_dependency_agent" registry with
  | Raise e => (st, Raise e)
  | Ok tda_meta =>
      let '(sent, called) :=
        call_agent httpx (env (Chained k)) tda_meta
          "task.resolve_dependencies" "" context (Some trigger_payload) in
      let st := mkExecState (step_outputs st) (used_agents st) (wire st ++ sent) in
      match called with
      | Raise e => (st, Raise e)
      | Ok tda_response =>
          let next := next_step_id (step_outputs st) in
          let st := mkExecState (<[next := tda_response]> (step_outputs st))
                      (used_agents st) (wire st) in
          match meta_name tda_meta with
          | Raise e => (st, Raise e)
          | Ok n =>
              (mkExecState (step_outputs st)
                 (used_agents st ++
                    [UsedAgentEntry.mk n "task.resolve_dependencies"
                       (AgentResponse.status tda_response)])
                 (wire st), Ok ())
          end
      end
  end.

(** [except KeyError: pass] and [except Exception: pass]: every
    exception of the body is dropped, the state stays as the body left
    it. *)
Definition auto_chain (k : nat) (st : ExecState) : ExecState :=
  fst (chain_body k st).

Definition chain_condition (step : Step.t) (response : AgentResponse.t) : bool :=
  String.eqb (Step.agent step) "KnowledgeBaseBuilderAgent"
  && String.eqb (AgentResponse.status response) "success"
  && String.eqb (Step.intent step) "create_task".

(** Lines 52-59: what the step's invocation makes of the state. *)
Definition record_step (st : ExecState) (step : Step.t) (name : string)
    (sent : list Dispatch) (response : AgentResponse.t) : ExecState :=
  mkExecState (<[Step.step_id step := response]> (step_outputs st))
    (used_agents st ++
       [UsedAgentEntry.mk name (Step.intent step) (AgentResponse.status response)])
    (wire st ++ sent).

(** One iteration of the loop, for the [k]-th step. *)
Definition run_step (k : nat) (st : ExecState) (step : Step.t)
    : py_result ExecState :=
  agent_meta ← find_agent_by_name on_missing (Step.agent step) registry;
  text ← resolve_input (Step.input_source step) query (step_outputs st);
  let '(sent, called) :=
    call_agent httpx (env (Primary k)) agent_meta (Step.intent step) text
      context None in
  response ← called;
  name ← meta_name agent_meta;
  let st := record_step st step name sent response in
  if chain_condition step response then Ok (auto_chain k st) else Ok st.

Fixpoint exec_steps (k : nat) (steps : list Step.t) (st : ExecState)
    : py_result ExecState :=
  match steps with
  | [] => Ok st
  | step :: rest => st' ← run_step k st step; exec_steps (S k) rest st'
  end.

Definition execute_plan_traced (plan : list Step.t) : py_result ExecState :=
  exec_steps 0 plan initial_state.

Definition execute_plan (plan : list Step.t)
    : py_result (gmap Z AgentResponse.t * list UsedAgentEntry.t) :=
  st ← execute_plan_traced plan;
  Ok (step_outputs st, used_agents st).

(** The same loop with no chain attempt. *)
Definition run_step_no_chain (k : nat) (st : ExecState) (step : Step.t)
    : py_result ExecState :=
  agent_meta ← find_agent_by_name on_missing (Step.agent step) registry;
  text ← resolve_input (Step.input_source step) query (step_outputs st);
  let '(sent, called) :=
    call_agent httpx (env (Primary k)) agent_meta (Step.intent step) text
      context None in
  response ← called;
  name ← meta_name agent_meta;
  Ok (record_step st step name sent response).

Fixpoint exec_steps_no_chain (k : nat) (steps : list Step.t) (st : ExecState)
    : py_result ExecState :=
  match steps with
  | [] => Ok st
  | step :: rest =>
      st' ← run_step_no_chain k st step; exec_steps_no_chain (S k) rest st'
  end.

Definition execute_plan_no_chain (plan : list Step.t)
    : py_result (gmap Z AgentResponse.t * list UsedAgentEntry.t) :=
  st ← exec_steps_no_chain 0 plan initial_state;
  Ok (step_outputs st, used_agents st).
End Executor.

(** ** Concrete registries, environments and plans *)

(** Three ways a lookup can answer for a name no entry carries. *)
Definition raise_key_error (name : string) : py_result (option AgentMetadata.t) :=
  Raise (KeyError name).

Definition return_none (name : string) : py_result (option AgentMetadata.t) :=
  Ok None.

Definition not_found_value (name : string) : py_result (option AgentMetadata.t) :=
  Ok (Some (AgentMetadata.mk name "" None 0)).

Definition builder_meta : AgentMetadata.t :=
  AgentMetadata.mk "KnowledgeBaseBuilderAgent" "http" (Some "http://kb.local/handle") 30000.

Definition tda_meta : AgentMetadata.t :=
  AgentMetadata.mk "task_dependency_agent" "http" (Some "http://tda.local/handle") 30000.

Definition summarizer_meta : AgentMetadata.t :=
  AgentMetadata.mk "document_summarizer" "http" (Some "http://sum.local/handle") 15000.

Definition full_registry : list AgentMetadata.t :=
  [builder_meta; tda_meta; summarizer_meta].

Definition registry_without_tda : list AgentMetadata.t :=
  [builder_meta; summarizer_meta].

Definition site_tag (s : Site) : string :=
  match s with
  | Primary k => "p" +:+ string_of_Z (Z.of_nat k)
  | Chained k => "c" +:+ string_of_Z (Z.of_nat k)
  end.

Definition success_reply (req : AgentRequest.t) : AgentResponse.t :=
  AgentResponse.mk (AgentRequest.request_id req) (AgentRequest.agent_name req)
    "success" (Some (OutputModel.mk (PyStr "done"))) None.

(** Every agent answers 200 with a success envelope. *)
Definition env_success (s : Site) : CallEnv :=
  mkCallEnv ("req-" +:+ site_tag s) (λ _ _ req, Reply 200 (Parsed (success_reply req))).

(** Every agent answers with the given status code and a well-formed
    success envelope. *)
Definition env_status (code : Z) (s : Site) : CallEnv :=
  mkCallEnv ("req-" +:+ site_tag s) (λ _ _ req, Reply code (Parsed (success_reply req))).

(** The first step's agent is down, the others answer. *)
Definition env_first_down (s : Site) : CallEnv :=
  match s with
  | Primary 0 =>
      mkCallEnv "req-p0" (λ _ _ _, Fault (OtherException "connection refused"))
  | _ => env_success s
  end.

Definition plain_context : Context.t :=
  Context.mk "anonymous" "conv-1" "2024-05-01T10:00:00+00:00" (Some []).

Definition upload (base64_data filename mime_type : string) : gmap string string :=
  <["base64_data" := base64_data]>
    (<["filename" := filename]> (<["mime_type" := mime_type]> ∅)).

Definition context_with (uploads : list (gmap string string)) : Context.t :=
  Context.mk "anonymous" "conv-1" "2024-05-01T10:00:00+00:00" (Some uploads).

Definition builder_step (id : Z) : Step.t :=
  Step.mk id "KnowledgeBaseBuilderAgent" "create_task" "user_query".

Definition summary_step (id : Z) (src : string) : Step.t :=
  Step.mk id "document_summarizer" "summarize" src.

Definition ghost_step (id : Z) : Step.t :=
  Step.mk id "ghost_agent" "anything" "user_query".

(** ** The resolver's contract, in the specification's words

    Section 4.1: the literal [user_query] gives the query; a reference
    [step:<id>] with an optional dotted suffix gives the string form of
    the output recorded under the leading id; anything else gives the
    query. The leading id segment ends at the first dot or colon. *)

Fixpoint strip_prefix (p s : string) : option string :=
  match p with
  | EmptyString => Some s
  | String a p' =>
      match s with
      | String b s' => if Ascii.eqb a b then strip_prefix p' s' else None
      | EmptyString => None
      end
  end.

Fixpoint leading_id (s : string) : string :=
  match s with
  | EmptyString => EmptyString
  | String a s' =>
      if Ascii.eqb a "."%char || Ascii.eqb a ":"%char then EmptyString
      else String a (leading_id s')
  end.

Definition parse_id (s : string) : option Z :=
  match py_int s with
  | Ok z => Some z
  | Raise _ => None
  end.

Definition referenced_output (input_source : string)
    (ledger : gmap Z AgentResponse.t) : option OutputModel.t :=
  rest ← strip_prefix "step:" input_source;
  id ← parse_id (leading_id rest);
  prior ← ledger !! id;
  AgentResponse.output prior.

Definition resolve_spec (input_source user_query : string)
    (ledger : gmap Z AgentResponse.t) : string :=
  if String.eqb input_source "user_query" then user_query
  else match referenced_output input_source ledger with
       | Some o => py_str (OutputModel.result o)
       | None => user_query
       end.

(** The text of [s] before the first [c]. *)
Fixpoint before (c : ascii) (s : string) : string :=
  match s with
  | EmptyString => EmptyString
  | String a s' => if Ascii.eqb a c then EmptyString else String a (before c s')
  end.

(** ** Derived notions of the invoker *)

(** The guard of line 74: an HTTP agent with an endpoint, and a transport. *)
Definition live (httpx : bool) (agent_meta : AgentMetadata.t) : bool :=
  String.eqb (AgentMetadata.type agent_meta) "http"
  && endpoint_truthy agent_meta && httpx.

(** The request an invocation builds, and the transport's answer to it. *)
Definition request_of (E : CallEnv) (agent_meta : AgentMetadata.t)
    (intent text : string) (context : Context.t) : AgentRequest.t :=
  build_handshake (uuid4 E) agent_meta intent text context.

Definition reply_of (E : CallEnv) (agent_meta : AgentMetadata.t)
    (intent text : string) (context : Context.t) : http_outcome :=
  post E (endpoint_str agent_meta) (AgentMetadata.timeout_ms agent_meta)
    (request_of E agent_meta intent text context).

(** ** Derived notions of the executor *)

(** The invocation of the [k]-th step from the state [st], once the lookup
    has answered [agent_meta]. *)
Definition invoke_step (httpx : bool) (env : Site → CallEnv) (query : string)
    (context : Context.t) (k : nat) (st : ExecState) (step : Step.t)
    (agent_meta : AgentMetadata.t) : list Dispatch * py_result AgentResponse.t :=
  call_agent httpx (env (Primary k)) (Some agent_meta) (Step.intent step)
    (resolve_spec (Step.input_source step) query (step_outputs st)) context None.

(** The chained invocation after the [k]-th step, on what the lookup gave. *)
Definition invoke_chained (httpx : bool) (env : Site → CallEnv)
    (context : Context.t) (k : nat) (tda_meta : option AgentMetadata.t)
    : list Dispatch * py_result AgentResponse.t :=
  call_agent httpx (env (Chained k)) tda_meta "task.resolve_dependencies" ""
    context (Some trigger_payload).

(** The chain attempt cannot complete: the dependency resolver is absent
    and the lookup raises, or the lookup answers and the chained call
    raises. *)
Definition chain_attempt_fails (httpx : bool)
    (on_missing : string → py_result (option AgentMetadata.t))
    (env : Site → CallEnv) (registry : list AgentMetadata.t)
    (context : Context.t) : Prop :=
  (absent "task_dependency_agent" registry
   ∧ ∃ e, on_missing "task_dependency_agent" = Raise e)
  ∨ (∃ v, find_agent_by_name on_missing "task_dependency_agent" registry = Ok v
       ∧ ∀ k, ∃ e, (invoke_chained httpx env context k v).2 = Raise e).

(** The state a completed chain attempt leaves. *)
Definition chained_state (st : ExecState) (tda_meta : AgentMetadata.t)
    (sent : list Dispatch) (tda_response : AgentResponse.t) : ExecState :=
  mkExecState
    (<[next_step_id (step_outputs st) := tda_response]> (step_outputs st))
    (used_agents st ++
       [UsedAgentEntry.mk (AgentMetadata.name tda_meta) "task.resolve_dependencies"
          (AgentResponse.status tda_response)])
    (wire st ++ sent).

(** A step that can fire the chain: the builder asked to create tasks. *)
Definition may_trigger (step : Step.t) : bool :=
  String.eqb (Step.agent step) "KnowledgeBaseBuilderAgent"
  && String.eqb (Step.intent step) "create_task".

(** ** The request handler ([server.py], [handle_query])

    The parts of the handler around [execute_plan] that are code of this
    file alone: the base64 payload of an upload marker, the upload entry
    put in the context, and the keys of [intermediate_results]. *)

(** [sub in s] *)
Fixpoint contains (sub s : string) : bool :=
  String.prefix sub s
  || match s with
     | EmptyString => false
     | String _ s' => contains sub s'
     end.

(** [s.split(sep)] for a separator that is not empty: the pieces between
    the occurrences of [sep], found from the left and not overlapping.
    [skip] counts the characters of a found separator still to pass. *)
Fixpoint py_split_aux (sep : string) (skip : nat) (s : string) : list string :=
  match s with
  | EmptyString => [EmptyString]
  | String a s' =>
      match skip with
      | S n => py_split_aux sep n s'
      | O =>
          if String.prefix sep s then
            EmptyString :: py_split_aux sep (String.length sep - 1) s'
          else match py_split_aux sep 0 s' with
               | [] => [String a EmptyString]
               | h :: t => String a h :: t
               end
      end
  end.

Definition py_split (sep s : string) : list string := py_split_aux sep 0 s.

(** [l[-1]] *)
Definition py_last {A} (l : list A) : py_result A :=
  match last l with
  | Some a => Ok a
  | None => Raise (IndexError "list index out of range")
  end.

(** Lines 74-80: the base64 payload of the data URL of an upload marker. *)
Definition extract_base64 (data_url_part : string) : py_result string :=
  if contains "base64," data_url_part then
    py_index (py_split "base64," data_url_part) 1
  else if contains "," data_url_part then
    py_last (py_split "," data_url_part)
  else Ok data_url_part.

(** Line 103: the key of a ledger entry in [intermediate_results], and the
    mapping itself ([.dict()] keeps the fields of the response). *)
Definition step_key (sid : Z) : string := "step_" +:+ string_of_Z sid.

Definition intermediate_results (step_outputs : gmap Z AgentResponse.t)
    : gmap string AgentResponse.t :=
  kmap step_key step_outputs.

(** No comma in the text. *)
Fixpoint comma_free (s : string) : bool :=
  match s with
  | EmptyString => true
  | String a s' => negb (Ascii.eqb a ",") && comma_free s'
  end.

(** The characters of a printed integer: the digits and the minus sign. *)
Definition is_id_char (a : ascii) : bool :=
  let n := nat_of_ascii a in
  ((48 <=? n)%nat && (n <=? 57)%nat) || (n =? 45)%nat.

Fixpoint id_chars (s : string) : bool :=
  match s with
  | EmptyString => true
  | String a s' => is_id_char a && id_chars s'
  end.

(** * Properties *)

(** ** Strings *)

Lemma strip_prefix_spec p s r : strip_prefix p s = Some r → s = p +:+ r.
Proof.
  revert s. induction p as [|a p IH]; intros s H; simpl in *.
  - by inversion H.
  - destruct s as [|b s]; [done|].
    destruct (Ascii.eqb a b) eqn:E; [|done].
    apply Ascii.eqb_eq in E as ->. by rewrite (IH s H).
Qed.

Lemma prefix_strip_prefix p s :
  String.prefix p s = match strip_prefix p s with Some _ => true | None => false end.
Proof.
  revert s. induction p as [|a p IH]; intros [|b s]; simpl; try done.
  - destruct (ascii_dec a b) as [->|Hne].
    + rewrite Ascii.eqb_refl. apply IH.
    + apply Ascii.eqb_neq in Hne. by rewrite Hne.
Qed.

Lemma strip_prefix_app p r : strip_prefix p (p +:+ r) = Some r.
Proof.
  induction p as [|a p IH]; [done|].
  change (String a p +:+ r) with (String a (p +:+ r)). cbn [strip_prefix].
  by rewrite Ascii.eqb_refl.
Qed.

Lemma prefix_app p r : String.prefix p (p +:+ r) = true.
Proof. by rewrite prefix_strip_prefix, strip_prefix_app. Qed.

Lemma split_on_head c s : ∃ t, split_on c s = before c s :: t.
Proof.
  induction s as [|a s [t IH]]; simpl.
  - by eexists.
  - destruct (Ascii.eqb a c); [by eexists|]. rewrite IH. by eexists.
Qed.

Lemma before_before_leading s : before "." (before ":" s) = leading_id s.
Proof.
  induction s as [|a s IH]; simpl; [done|].
  destruct (Ascii.eqb a ":") eqn:Hc; simpl.
  - by rewrite orb_true_r.
  - rewrite orb_false_r. destruct (Ascii.eqb a "."); [done|]. by rewrite IH.
Qed.

Lemma split_step_reference rest :
  ∃ t, split_on ":" ("step:" +:+ rest) = "step" :: before ":" rest :: t.
Proof.
  destruct (split_on_head ":" rest) as [t Ht]. exists t.
  change ("step:" +:+ rest)
    with (String "s" (String "t" (String "e" (String "p" (String ":" rest))))).
  cbn. by rewrite Ht.
Qed.

(** ** Input resolver *)

Lemma resolve_input_refines input_source user_query ledger :
  resolve_input input_source user_query ledger
  = Ok (resolve_spec input_source user_query ledger).
Proof.
  unfold resolve_input, resolve_input_with, resolve_spec, referenced_output,
    startswith.
  destruct (String.eqb input_source "user_query"); [done|].
  rewrite prefix_strip_prefix.
  destruct (strip_prefix "step:" input_source) as [rest|] eqn:Hp; [|done].
  apply strip_prefix_spec in Hp as ->.
  destruct (split_step_reference rest) as [t ->].
  cbn -[split_on py_int before].
  destruct (split_on_head "." (before ":" rest)) as [t' ->].
  cbn -[py_int before].
  rewrite before_before_leading. unfold parse_id.
  destruct (py_int (leading_id rest)) as [n|e] eqn:Hn; cbn.
  - destruct (ledger !! n) as [prior|]; cbn; [|done].
    by destruct (AgentResponse.output prior).
  - unfold py_int in Hn. repeat case_match; by simplify_eq.
Qed.

Lemma step_reference_shape rest :
  String.eqb ("step:" +:+ rest) "user_query" = false
  ∧ strip_prefix "step:" ("step:" +:+ rest) = Some rest.
Proof.
  change ("step:" +:+ rest)
    with (String "s" (String "t" (String "e" (String "p" (String ":" rest))))).
  split; reflexivity.
Qed.

Lemma leading_id_dotted id_seg field :
  leading_id id_seg = id_seg → leading_id (id_seg +:+ "." +:+ field) = id_seg.
Proof.
  induction id_seg as [|a s IH]; intros H.
  - reflexivity.
  - change (String a s +:+ "." +:+ field) with (String a (s +:+ "." +:+ field)).
    simpl in *. destruct (Ascii.eqb a "." || Ascii.eqb a ":"); [done|].
    injection H as H. by rewrite IH.
Qed.






(** With the interpreter's [int] on code points below 256: a unit
    separator before the id is not white space for [int], so the reference
    falls back to the query; a no-break space is, so the reference
    resolves. *)
Example resolve_input_white_space :
  let prior :=
    AgentResponse.mk "req-p0" "document_summarizer" "success"
      (Some (OutputModel.mk (PyStr "42"))) None in
  resolve_input ("step:" +:+ String (ascii_of_nat 31) "2") "q" {[ 2 := prior ]}
  = Ok "q"
  ∧ resolve_input ("step:" +:+ String (ascii_of_nat 160) "2") "q" {[ 2 := prior ]}
    = Ok "42"
  ∧ resolve_input "step: 2 " "q" {[ 2 := prior ]} = Ok "42".
Proof. vm_compute. by repeat split. Qed.

(** ** Agent invoker *)

Lemma call_agent_unfold httpx E agent_meta intent text context custom_input :
  call_agent httpx E (Some agent_meta) intent text context custom_input
  = if live httpx agent_meta then
      ([mkDispatch (endpoint_str agent_meta) (AgentMetadata.timeout_ms agent_meta)
          (request_of E agent_meta intent text context)],
       Ok match reply_of E agent_meta intent text context with
          | Fault e =>
              error_response (uuid4 E) agent_meta "network_error" (exn_str e)
          | Reply status_code body =>
              if decide (status_code = 200) then
                match body with
                | Parsed r => r
                | Malformed e =>
                    error_response (uuid4 E) agent_meta "network_error" (exn_str e)
                end
              else
                error_response (uuid4 E) agent_meta "http_error"
                  ("HTTP " +:+ string_of_Z status_code +:+ " calling "
                     +:+ endpoint_str agent_meta)
          end)
    else
      ([], Ok (error_response (uuid4 E) agent_meta
                 (if String.eqb (AgentMetadata.type agent_meta) "http" then "config_error"
                  else if String.eqb (AgentMetadata.type agent_meta) "cli"
                       then "not_implemented" else "config_error")
                 (if String.eqb (AgentMetadata.type agent_meta) "http" && negb httpx
                  then "httpx not installed for HTTP agent calls"
                  else if String.eqb (AgentMetadata.type agent_meta) "cli"
                       then "CLI agent execution is not implemented"
                       else "Agent endpoint/command not configured"))).
Proof.
  unfold call_agent, live, reply_of, request_of, http_exchange.
  destruct (String.eqb (AgentMetadata.type agent_meta) "http") eqn:Ht;
    destruct (endpoint_truthy agent_meta); destruct httpx; cbn [andb negb];
    try reflexivity.
  1: { f_equal.
       destruct (post E _ _ _) as [e|code body]; [done|].
       case_decide as Hc.
       - subst code. cbn. by destruct body.
       - apply Z.eqb_neq in Hc. by rewrite Hc. }
  all: destruct (String.eqb (AgentMetadata.type agent_meta) "cli") eqn:Hc;
    try reflexivity.
  all: apply String.eqb_eq in Ht, Hc; congruence.
Qed.

(** The override is accepted and never read. *)
Lemma call_agent_custom_input_unused httpx E agent_meta intent text context ci :
  call_agent httpx E agent_meta intent text context ci
  = call_agent httpx E agent_meta intent text context None.
Proof. reflexivity. Qed.

(** A call raises only on a missing metadata value, before anything is
    sent. *)
Lemma call_agent_raises httpx E agent_meta intent text context ci sent e :
  call_agent httpx E agent_meta intent text context ci = (sent, Raise e) →
  agent_meta = None ∧ sent = [].
Proof.
  destruct agent_meta as [m|]; [|by inversion 1].
  rewrite call_agent_unfold. destruct (live httpx m); by inversion 1.
Qed.

(** A boolean test on strings, as the equation or disequation it decides. *)
Ltac string_test H :=
  first [apply String.eqb_eq in H | apply (proj1 (String.eqb_neq _ _)) in H].

(** Two different literals for the type of one agent. *)
Ltac type_clash :=
  exfalso;
  match goal with
  | H1 : AgentMetadata.type ?m = _, H2 : AgentMetadata.type ?m = _ |- _ =>
      rewrite H1 in H2; discriminate H2
  | H1 : AgentMetadata.type ?m = _, H2 : AgentMetadata.type ?m ≠ _ |- _ =>
      by apply H2
  | H : ?b = negb ?b |- _ => by destruct b
  | H : true = false |- _ => discriminate H
  | H : false = true |- _ => discriminate H
  end.

(** C3. Whatever the metadata, intent, text, context and override,
    [call_agent] returns a response and never raises. The response has
    status [error] and carries an error unless it is the decoded body of a
    200 reply; a transport fault or timeout and a malformed reply give
    [network_error], a missing transport, an unsupported type and a missing
    endpoint give [config_error], the [cli] type gives [not_implemented]. *)
Theorem C3_call_agent_never_raises httpx E agent_meta intent text context custom_input :
  ∃ sent r,
    call_agent httpx E (Some agent_meta) intent text context custom_input
    = (sent, Ok r)
    ∧ ((AgentResponse.status r = "error" ∧ is_Some (AgentResponse.error r))
       ∨ (live httpx agent_meta = true
          ∧ reply_of E agent_meta intent text context = Reply 200 (Parsed r)))
    ∧ (∀ e, live httpx agent_meta = true →
         reply_of E agent_meta intent text context = Fault e →
         r = error_response (uuid4 E) agent_meta "network_error" (exn_str e))
    ∧ (∀ e, live httpx agent_meta = true →
         reply_of E agent_meta intent text context = Reply 200 (Malformed e) →
         r = error_response (uuid4 E) agent_meta "network_error" (exn_str e))
    ∧ (AgentMetadata.type agent_meta = "http" → httpx = false →
         r = error_response (uuid4 E) agent_meta "config_error"
               "httpx not installed for HTTP agent calls")
    ∧ (AgentMetadata.type agent_meta ≠ "http" →
       AgentMetadata.type agent_meta ≠ "cli" →
         r = error_response (uuid4 E) agent_meta "config_error"
               "Agent endpoint/command not configured")
    ∧ (AgentMetadata.type agent_meta = "http" →
       endpoint_truthy agent_meta = false → httpx = true →
         r = error_response (uuid4 E) agent_meta "config_error"
               "Agent endpoint/command not configured")
    ∧ (AgentMetadata.type agent_meta = "cli" →
         r = error_response (uuid4 E) agent_meta "not_implemented"
               "CLI agent execution is not implemented").
Proof.
  rewrite call_agent_unfold. unfold live.
  destruct (String.eqb (AgentMetadata.type agent_meta) "http") eqn:Ht;
    destruct (endpoint_truthy agent_meta) eqn:He; destruct httpx;
    cbn [andb negb]; eexists _, _; (split; [reflexivity|]).
  1: { apply String.eqb_eq in Ht.
       destruct (reply_of E agent_meta intent text context)
         as [e|code [r'|e]] eqn:Hr; try case_decide; subst;
         split_and!; intros; simplify_eq; try done;
         try (left; split; [done|by eexists]);
         try (by right); type_clash. }
  all: destruct (String.eqb (AgentMetadata.type agent_meta) "cli") eqn:Hc.
  all: string_test Ht; string_test Hc.
  all: repeat apply conj; intros; simplify_eq; try done;
    try (left; split; [done|by eexists]); type_clash.
Qed.

(** C5, as stated, fails: a well-formed reply with status 201 is not
    returned as it is, it becomes an [http_error]. *)
Lemma C5_counterexample_201 :
  let E := env_status 201 (Primary 0) in
  let reply := success_reply (request_of E summarizer_meta "summarize" "q" plain_context) in
  live true summarizer_meta = true
  ∧ reply_of E summarizer_meta "summarize" "q" plain_context = Reply 201 (Parsed reply)
  ∧ (call_agent true E (Some summarizer_meta) "summarize" "q" plain_context None).2
    = Ok (error_response "req-p0" summarizer_meta "http_error"
            "HTTP 201 calling http://sum.local/handle")
  ∧ (call_agent true E (Some summarizer_meta) "summarize" "q" plain_context None).2
    ≠ Ok reply.
Proof. vm_compute. by repeat split. Qed.

(** C5, amended. For an agent of type [http] with a configured endpoint
    and a working transport: every reply whose status code is not 200
    gives a response with status [error] and error type [http_error] whose
    message carries the status code and the endpoint, and every
    well-formed reply with status code 200 is returned as it is. *)
Theorem C5_http_reply_handling E agent_meta intent text context custom_input
    endpoint code body :
  AgentMetadata.type agent_meta = "http" →
  AgentMetadata.endpoint agent_meta = Some endpoint →
  endpoint ≠ "" →
  reply_of E agent_meta intent text context = Reply code body →
  (code ≠ 200 →
     (call_agent true E (Some agent_meta) intent text context custom_input).2
     = Ok (AgentResponse.mk (uuid4 E) (AgentMetadata.name agent_meta) "error" None
             (Some (ErrorModel.mk "http_error"
                      ("HTTP " +:+ string_of_Z code +:+ " calling " +:+ endpoint)))))
  ∧ (∀ r, code = 200 → body = Parsed r →
       (call_agent true E (Some agent_meta) intent text context custom_input).2
       = Ok r).
Proof.
  intros Ht He Hne Hr. rewrite call_agent_unfold.
  assert (live true agent_meta = true) as ->.
  { unfold live, endpoint_truthy, str_truthy. rewrite Ht, He.
    apply String.eqb_neq in Hne. by rewrite Hne. }
  rewrite Hr. unfold error_response, endpoint_str. rewrite He. cbn [snd default].
  split.
  - intros Hc. by rewrite decide_False.
  - intros r -> ->. by rewrite decide_True.
Qed.

Lemma C5_http_reply_handling_witness :
  (call_agent true (env_status 500 (Primary 0)) (Some summarizer_meta)
     "summarize" "q" plain_context None).2
  = Ok (AgentResponse.mk "req-p0" "document_summarizer" "error" None
          (Some (ErrorModel.mk "http_error"
                   "HTTP 500 calling http://sum.local/handle"))).
Proof.
  refine (proj1 (C5_http_reply_handling (env_status 500 (Primary 0))
                   summarizer_meta "summarize" "q" plain_context None
                   "http://sum.local/handle" 500 _ eq_refl eq_refl _ eq_refl) _).
  - discriminate.
  - lia.
Defined.

(** ** Handshake metadata *)

Lemma build_metadata_no_file context :
  match default [] (Context.file_uploads context) with
  | [] => True
  | first_file :: _ => upload_field first_file "base64_data" "" = ""
  end →
  build_metadata context = [("language", JStr "en"); ("extra", JObj [])].
Proof.
  unfold build_metadata. destruct (default [] _) as [|f rest]; [done|].
  intros ->. done.
Qed.

(** C9, as stated, fails: with exactly one upload in the context, whose
    base64 payload is empty, neither the payload nor the MIME type nor the
    file name reaches the metadata of the request that is sent. *)
Lemma C9_counterexample_empty_payload :
  let first_file := upload "" "notes.txt" "text/plain" in
  let context := context_with [first_file] in
  Context.file_uploads context = Some [first_file]
  ∧ upload_field first_file "filename" "uploaded_file" = "notes.txt"
  ∧ AgentRequest.input <$>
      (body <$> (call_agent true (env_success (Primary 0)) (Some summarizer_meta)
                   "summarize" "q" context None).1)
    = [JObj [("text", JStr "q");
             ("metadata", JObj [("language", JStr "en"); ("extra", JObj [])])]]
  ∧ dict_get "file_base64" (build_metadata context) = None
  ∧ dict_get "mime_type" (build_metadata context) = None
  ∧ dict_get "filename" (build_metadata context) = None.
Proof. vm_compute. by repeat split. Qed.

(** C9, amended. The input of every request [call_agent] sends is the
    text with a metadata mapping that carries [language: "en"]; when the
    context holds at least one upload and the first upload's base64
    payload is not empty, the metadata also carries that payload, its MIME
    type and its file name (the later uploads are not read); when the
    first upload's payload is empty, or there is no upload, the metadata
    carries no file. *)
Theorem C9_handshake_metadata httpx E agent_meta intent text context custom_input :
  (∀ d, d ∈ (call_agent httpx E agent_meta intent text context custom_input).1 →
     AgentRequest.input (body d)
     = JObj [("text", JStr text); ("metadata", JObj (build_metadata context))])
  ∧ dict_get "language" (build_metadata context) = Some (JStr "en")
  ∧ (∀ first_file others,
       Context.file_uploads context = Some (first_file :: others) →
       upload_field first_file "base64_data" "" ≠ "" →
       build_metadata context
       = [("language", JStr "en"); ("extra", JObj []);
          ("file_base64", JStr (upload_field first_file "base64_data" ""));
          ("mime_type",
           JStr (upload_field first_file "mime_type" "application/octet-stream"));
          ("filename", JStr (upload_field first_file "filename" "uploaded_file"))])
  ∧ (∀ first_file others,
       Context.file_uploads context = Some (first_file :: others) →
       upload_field first_file "base64_data" "" = "" →
       build_metadata context = [("language", JStr "en"); ("extra", JObj [])])
  ∧ (Context.file_uploads context = None ∨ Context.file_uploads context = Some [] →
       build_metadata context = [("language", JStr "en"); ("extra", JObj [])]).
Proof.
  repeat apply conj.
  - intros d Hd. destruct agent_meta as [m|]; [|by apply elem_of_nil in Hd].
    rewrite call_agent_unfold in Hd.
    destruct (live httpx m); [|by apply elem_of_nil in Hd].
    apply list_elem_of_singleton in Hd as ->. reflexivity.
  - unfold build_metadata. destruct (default [] _) as [|f rest]; [done|].
    cbn zeta. by destruct (str_truthy _).
  - intros f others Hf Hne. unfold build_metadata. rewrite Hf.
    cbn [default id]. cbv zeta. unfold str_truthy.
    apply String.eqb_neq in Hne. rewrite Hne. reflexivity.
  - intros f others Hf He. apply build_metadata_no_file. by rewrite Hf.
  - intros [H|H]; apply build_metadata_no_file; by rewrite H.
Qed.

(** ** Registry lookup *)

Lemma absent_no_entry name registry :
  absent name registry ↔ ∀ m, m ∈ registry → AgentMetadata.name m ≠ name.
Proof.
  unfold absent. induction registry as [|m0 registry IH]; simpl.
  - split; [|done]. intros _ m Hm. by apply elem_of_nil in Hm.
  - destruct (String.eqb (AgentMetadata.name m0) name) eqn:E.
    + split; [done|]. intros H. apply String.eqb_eq in E.
      exfalso. apply (H m0); [left|done].
    + rewrite IH. apply String.eqb_neq in E. split.
      * intros H m Hm. apply elem_of_cons in Hm as [->|Hm]; auto.
      * intros H m Hm. apply H. by right.
Qed.

Lemma find_absent on_missing name registry :
  absent name registry →
  find_agent_by_name on_missing name registry = on_missing name.
Proof. unfold absent, find_agent_by_name. by intros ->. Qed.

(** ** The next step id *)

Lemma foldr_max_spec x (l : list Z) :
  foldr Z.max x l ∈ x :: l ∧ ∀ y, y ∈ x :: l → y ≤ foldr Z.max x l.
Proof.
  induction l as [|z l [IHin IHle]]; simpl.
  - split; [left|]. intros y Hy. apply list_elem_of_singleton in Hy. lia.
  - split.
    + destruct (Z.max_spec z (foldr Z.max x l)) as [[_ ->]|[_ ->]].
      * apply elem_of_cons in IHin as [->|Hin]; [left|]. by do 2 right.
      * right; left.
    + intros y Hy.
      assert (y = z ∨ y ∈ x :: l) as [->|Hy'].
      { apply elem_of_cons in Hy as [->|Hy]; [right; left|].
        apply elem_of_cons in Hy as [->|Hy]; [by left|]. right. by right. }
      * lia.
      * specialize (IHle y Hy'). lia.
Qed.

Lemma max_list_spec (l : list Z) m :
  max_list l = Some m → m ∈ l ∧ ∀ y, y ∈ l → y ≤ m.
Proof.
  destruct l as [|x l]; [done|]. intros [= <-]. apply foldr_max_spec.
Qed.

Lemma max_list_is_Some (l : list Z) : l ≠ [] → is_Some (max_list l).
Proof. destruct l; [done|]. by eexists. Qed.

Section NextStepId.
Context (ledger : gmap Z AgentResponse.t).

Lemma key_is_listed k r : ledger !! k = Some r → k ∈ (map_to_list ledger).*1.
Proof.
  intros H. apply list_elem_of_fmap. exists (k, r). split; [done|].
  by apply elem_of_map_to_list.
Qed.

Lemma listed_is_key k : k ∈ (map_to_list ledger).*1 → is_Some (ledger !! k).
Proof.
  intros H. apply list_elem_of_fmap in H as ([k' r] & -> & H).
  apply elem_of_map_to_list in H. by eexists.
Qed.

Lemma next_step_id_above k r : ledger !! k = Some r → k < next_step_id ledger.
Proof.
  intros H. apply key_is_listed in H. unfold next_step_id.
  destruct (max_list _) as [m|] eqn:Hm.
  - apply max_list_spec in Hm as [_ Hle]. specialize (Hle k H). lia.
  - destruct ((map_to_list ledger).*1); [by apply elem_of_nil in H|done].
Qed.

Lemma next_step_id_fresh : ledger !! next_step_id ledger = None.
Proof.
  destruct (ledger !! next_step_id ledger) as [r|] eqn:H; [|done].
  apply next_step_id_above in H. lia.
Qed.

Lemma next_step_id_max :
  ledger ≠ ∅ →
  ∃ m, max_list (map_to_list ledger).*1 = Some m
       ∧ is_Some (ledger !! m)
       ∧ (∀ k r, ledger !! k = Some r → k ≤ m)
       ∧ next_step_id ledger = m + 1.
Proof.
  intros Hne.
  destruct (max_list_is_Some (map_to_list ledger).*1) as [m Hm].
  { intros Hnil. apply Hne, map_to_list_empty_iff.
    by apply fmap_nil_inv in Hnil. }
  exists m. split; [done|].
  destruct (max_list_spec _ _ Hm) as [Hin Hle].
  split_and!.
  - by apply listed_is_key.
  - intros k r Hk. apply Hle. by eapply key_is_listed.
  - unfold next_step_id. by rewrite Hm.
Qed.
End NextStepId.

(** ** Plan executor *)

Lemma call_agent_returns httpx E agent_meta intent text context ci :
  ∃ sent r, call_agent httpx E (Some agent_meta) intent text context ci = (sent, Ok r).
Proof. rewrite call_agent_unfold. destruct (live httpx agent_meta); by eexists _, _. Qed.

Arguments call_agent : simpl never.
Arguments resolve_input : simpl never.
Arguments find_agent_by_name : simpl never.

Section ExecutorProperties.
Context (httpx : bool)
        (on_missing : string → py_result (option AgentMetadata.t))
        (env : Site → CallEnv) (query : string)
        (registry : list AgentMetadata.t) (context : Context.t).

Abbreviation find_agent name := (find_agent_by_name on_missing name registry).
Abbreviation run_step' := (run_step httpx on_missing env query registry context).
Abbreviation exec_steps' := (exec_steps httpx on_missing env query registry context).
Abbreviation auto_chain' := (auto_chain httpx on_missing env registry context).
Abbreviation chain_body' := (chain_body httpx on_missing env registry context).
Abbreviation invoke_step' := (invoke_step httpx env query context).

Lemma exec_steps_app k l1 l2 st :
  exec_steps' k (l1 ++ l2)%list st
  = exec_steps' k l1 st ≫= exec_steps' (k + length l1) l2.
Proof.
  revert k st. induction l1 as [|s l1 IH]; intros k st; simpl.
  - by rewrite Nat.add_0_r.
  - destruct (run_step' k st s) as [st'|e]; simpl; [|done].
    rewrite IH. by rewrite Nat.add_succ_r.
Qed.

Lemma run_step_found k st step agent_meta sent response :
  find_agent (Step.agent step) = Ok (Some agent_meta) →
  invoke_step' k st step agent_meta = (sent, Ok response) →
  run_step' k st step
  = Ok (let st1 := record_step st step (AgentMetadata.name agent_meta) sent response in
        if chain_condition step response then auto_chain' k st1 else st1).
Proof.
  unfold run_step, invoke_step. intros -> Hcall. cbn.
  rewrite resolve_input_refines. cbn. rewrite Hcall. cbn.
  by destruct (chain_condition step response).
Qed.

(** An error response never meets the chain condition. *)
Lemma chain_condition_error step response :
  AgentResponse.status response = "error" → chain_condition step response = false.
Proof.
  unfold chain_condition. intros ->.
  by rewrite andb_false_r.
Qed.

(** What a chain attempt can do to the state: append to the wire, add the
    entry under the next step id, append to the usage log. *)
Lemma auto_chain_effect k st :
  let st' := auto_chain' k st in
  (step_outputs st' = step_outputs st
   ∨ ∃ tda_response,
       step_outputs st'
       = <[next_step_id (step_outputs st) := tda_response]> (step_outputs st))
  ∧ (∃ more, used_agents st' = (used_agents st ++ more)%list)
  ∧ (∃ more, wire st' = (wire st ++ more)%list).
Proof.
  unfold auto_chain, chain_body.
  destruct (find_agent "task_dependency_agent") as [v|e]; cbn.
  2: { split_and!; [by left|exists []|exists []]; by rewrite app_nil_r. }
  destruct (call_agent _ _ v _ _ _ _) as [sent [r|e]]; cbn.
  2: { split_and!; [by left|exists []; by rewrite app_nil_r|by eexists]. }
  destruct (meta_name v) as [n|e]; cbn.
  - split_and!; [right|..]; by eexists.
  - split_and!; [right; by eexists|exists []; by rewrite app_nil_r|by eexists].
Qed.

Lemma auto_chain_fails k st :
  chain_attempt_fails httpx on_missing env registry context →
  auto_chain' k st = st.
Proof.
  unfold auto_chain, chain_body.
  intros [[Habs [e He]]|(v & Hv & Hcall)].
  - rewrite (find_absent _ _ _ Habs), He. reflexivity.
  - rewrite Hv. destruct (Hcall k) as [e He]. unfold invoke_chained in He.
    destruct (call_agent _ _ v _ _ _ _) as [sent called] eqn:Hc.
    cbn in He. subst called.
    apply call_agent_raises in Hc as [_ ->]. cbn.
    rewrite app_nil_r. by destruct st.
Qed.

Lemma run_step_no_chain_eq k st step :
  chain_attempt_fails httpx on_missing env registry context →
  run_step' k st step
  = run_step_no_chain httpx on_missing env query registry context k st step.
Proof.
  intros Hfail. unfold run_step, run_step_no_chain.
  destruct (find_agent (Step.agent step)) as [v|e]; cbn; [|done].
  destruct (resolve_input _ _ _) as [text|e]; cbn; [|done].
  destruct (call_agent _ _ v _ _ _ _) as [sent [r|e]]; cbn; [|done].
  destruct (meta_name v) as [n|e]; cbn; [|done].
  destruct (chain_condition step r); [|done].
  by rewrite auto_chain_fails.
Qed.

Lemma exec_steps_no_chain_eq k steps st :
  chain_attempt_fails httpx on_missing env registry context →
  exec_steps' k steps st
  = exec_steps_no_chain httpx on_missing env query registry context k steps st.
Proof.
  intros Hfail. revert k st. induction steps as [|s steps IH]; intros k st; simpl.
  - done.
  - rewrite run_step_no_chain_eq by done.
    destruct (run_step_no_chain _ _ _ _ _ _ k st s) as [st'|e]; cbn; [|done].
    apply IH.
Qed.

Lemma invoke_step_returns k st step agent_meta :
  ∃ sent response, invoke_step' k st step agent_meta = (sent, Ok response).
Proof. apply call_agent_returns. Qed.

(** A step whose lookup answers is run to its end, and leaves at least
    its own entry in the usage log. *)
Lemma run_step_total k st step agent_meta :
  find_agent (Step.agent step) = Ok (Some agent_meta) →
  ∃ st', run_step' k st step = Ok st'
         ∧ (length (used_agents st) < length (used_agents st'))%nat.
Proof.
  intros Hfind.
  destruct (invoke_step_returns k st step agent_meta) as (sent & r & Hcall).
  rewrite (run_step_found _ _ _ _ _ _ Hfind Hcall). eexists. split; [done|].
  cbv zeta.
  set (st1 := record_step st step (AgentMetadata.name agent_meta) sent r).
  assert (length (used_agents st1) = S (length (used_agents st))) as Hlen.
  { unfold st1, record_step. cbn. rewrite length_app. cbn. lia. }
  destruct (chain_condition step r); [|lia].
  destruct (auto_chain_effect k st1) as (_ & [more Hmore] & _).
  rewrite Hmore, length_app. lia.
Qed.

Lemma exec_steps_total k steps st :
  (∀ s, s ∈ steps → ∃ m, find_agent (Step.agent s) = Ok (Some m)) →
  ∃ st', exec_steps' k steps st = Ok st'
         ∧ (length (used_agents st) + length steps
            ≤ length (used_agents st'))%nat.
Proof.
  revert k st. induction steps as [|s steps IH]; intros k st Hfound; simpl.
  - eexists. split; [done|lia].
  - destruct (Hfound s) as [m Hm]; [left|].
    destruct (run_step_total k st s m Hm) as (st1 & -> & Hlen). cbn.
    destruct (IH (S k) st1) as (st2 & -> & Hlen2).
    { intros s' Hs'. apply Hfound. by right. }
    eexists. split; [done|lia].
Qed.


(** C6. When every step's lookup answers with a metadata value, the
    plan is executed to its end whatever the statuses of the responses:
    every step is reached and invoked, and a step whose invocation
    returns status [error] leaves that response in the ledger under its
    id, an [error] entry in the usage log, and the steps after it are
    executed from that state. In a two-step plan whose first step fails,
    the second step is executed. *)
Theorem C6_no_short_circuit plan :
  (∀ s, s ∈ plan → ∃ m, find_agent (Step.agent s) = Ok (Some m)) →
  (∃ st_final,
     execute_plan_traced httpx on_missing env query registry context plan
     = Ok st_final
     ∧ (length plan ≤ length (used_agents st_final))%nat)
  ∧ ∀ pre step post, plan = (pre ++ step :: post)%list →
      ∃ st_pre agent_meta sent response,
        exec_steps' 0 pre initial_state = Ok st_pre
        ∧ find_agent (Step.agent step) = Ok (Some agent_meta)
        ∧ invoke_step' (length pre) st_pre step agent_meta = (sent, Ok response)
        ∧ (AgentResponse.status response = "error" →
             let st' :=
               record_step st_pre step (AgentMetadata.name agent_meta) sent
                 response in
             run_step' (length pre) st_pre step = Ok st'
             ∧ step_outputs st' !! Step.step_id step = Some response
             ∧ last (used_agents st')
               = Some (UsedAgentEntry.mk (AgentMetadata.name agent_meta)
                         (Step.intent step) "error")
             ∧ ∃ st_final,
                 exec_steps' (S (length pre)) post st' = Ok st_final
                 ∧ execute_plan_traced httpx on_missing env query registry
                     context plan = Ok st_final
                 ∧ (length (used_agents st') + length post
                    ≤ length (used_agents st_final))%nat).
Proof.
  intros Hfound. split.
  - destruct (exec_steps_total 0 plan initial_state Hfound) as (st & Hst & Hlen).
    exists st. split; [done|]. cbn in Hlen. lia.
  - intros pre step post ->.
    destruct (exec_steps_total 0 pre initial_state) as (st_pre & Hpre & _).
    { intros s Hs. apply Hfound, elem_of_app. by left. }
    destruct (Hfound step) as [m Hm].
    { apply elem_of_app. right. left. }
    destruct (invoke_step_returns (length pre) st_pre step m) as (sent & r & Hcall).
    exists st_pre, m, sent, r. split_and!; try done.
    intros Herr. cbv zeta.
    set (st' := record_step st_pre step (AgentMetadata.name m) sent r).
    assert (run_step' (length pre) st_pre step = Ok st') as Hrun.
    { rewrite (run_step_found _ _ _ _ _ _ Hm Hcall). cbv zeta.
      by rewrite chain_condition_error. }
    destruct (exec_steps_total (S (length pre)) post st') as (st_final & Hpost & Hlen).
    { intros s Hs. apply Hfound, elem_of_app. right. by right. }
    split_and!; try done.
    + cbn. apply lookup_insert_eq.
    + unfold st', record_step. cbn. rewrite last_snoc. by rewrite Herr.
    + exists st_final. split_and!; try done.
      unfold execute_plan_traced. rewrite exec_steps_app, Hpre. cbn.
      by rewrite Hrun.
Qed.

(** C8. When the chain attempt fails, because the dependency resolver is
    absent from the registry and the lookup raises, or because the
    chained call itself raises, the attempt is dropped without a trace:
    it leaves the state as it found it, the loop goes on, and the ledger
    and the usage log that [execute_plan] returns are those of the same
    execution with no chain attempt. *)
Theorem C8_failed_chain_is_skipped plan :
  chain_attempt_fails httpx on_missing env registry context →
  (∀ k st, auto_chain' k st = st)
  ∧ (∀ k steps st,
       exec_steps' k steps st
       = exec_steps_no_chain httpx on_missing env query registry context k steps st)
  ∧ execute_plan httpx on_missing env query registry context plan
    = execute_plan_no_chain httpx on_missing env query registry context plan.
Proof.
  intros Hfail. split_and!.
  - intros k st. by apply auto_chain_fails.
  - intros k steps st. by apply exec_steps_no_chain_eq.
  - unfold execute_plan, execute_plan_no_chain, execute_plan_traced.
    by rewrite exec_steps_no_chain_eq.
Qed.

(** C10. When the chain fires, right after the trigger step has been
    recorded, the ledger holds the trigger step's entry and is not empty;
    the synthetic id is the largest key of the ledger plus one, above
    every key present, and not a key itself; and the chain attempt, which
    either leaves the ledger or adds the entry under the synthetic id,
    keeps every entry the ledger had. *)
Theorem C10_synthetic_id_is_fresh k st step name sent response :
  let st1 := record_step st step name sent response in
  let ledger := step_outputs st1 in
  let next := next_step_id ledger in
  ledger !! Step.step_id step = Some response
  ∧ ledger ≠ ∅
  ∧ (∃ m, max_list (map_to_list ledger).*1 = Some m
          ∧ is_Some (ledger !! m)
          ∧ (∀ k' r, ledger !! k' = Some r → k' ≤ m)
          ∧ next = m + 1)
  ∧ (∀ k' r, ledger !! k' = Some r → k' < next)
  ∧ ledger !! next = None
  ∧ (step_outputs (auto_chain' k st1) = ledger
     ∨ ∃ tda_response,
         step_outputs (auto_chain' k st1) = <[next := tda_response]> ledger)
  ∧ (∀ k' r, ledger !! k' = Some r →
       step_outputs (auto_chain' k st1) !! k' = Some r).
Proof.
  cbv zeta.
  set (st1 := record_step st step name sent response).
  assert (step_outputs st1 !! Step.step_id step = Some response) as Hin.
  { cbn. apply lookup_insert_eq. }
  assert (step_outputs st1 ≠ ∅) as Hne.
  { intros Hempty. rewrite Hempty in Hin. by rewrite lookup_empty in Hin. }
  destruct (auto_chain_effect k st1) as (Hledger & _ & _).
  split_and!; try done.
  - by apply next_step_id_max.
  - apply next_step_id_above.
  - apply next_step_id_fresh.
  - intros k' r Hk'. destruct Hledger as [->|[tda ->]]; [done|].
    rewrite lookup_insert_ne; [done|].
    apply next_step_id_above in Hk'. lia.
Qed.
End ExecutorProperties.

(** ** The executor on concrete plans *)



Lemma full_registry_serves_summaries s :
  s ∈ [summary_step 1 "user_query"; summary_step 2 "step:1"] →
  ∃ m, find_agent_by_name raise_key_error (Step.agent s) full_registry = Ok (Some m).
Proof.
  intros Hs. apply elem_of_cons in Hs as [->|Hs]; [by eexists|].
  apply elem_of_cons in Hs as [->|Hs]; [by eexists|].
  by apply elem_of_nil in Hs.
Defined.

Lemma C6_no_short_circuit_witness :
  ∃ st_final,
    execute_plan_traced true raise_key_error env_first_down "q" full_registry
      plain_context [summary_step 1 "user_query"; summary_step 2 "step:1"]
    = Ok st_final
    ∧ (2 ≤ length (used_agents st_final))%nat.
Proof.
  exact (proj1 (C6_no_short_circuit true raise_key_error env_first_down "q"
                  full_registry plain_context
                  [summary_step 1 "user_query"; summary_step 2 "step:1"]
                  full_registry_serves_summaries)).
Defined.

(** The two-step plan whose first step fails: both steps are in the ledger
    and in the usage log, and the second step, which refers to the first,
    was sent the query. *)
Example two_step_plan_first_fails :
  ∃ r2,
    execute_plan true raise_key_error env_first_down "q" full_registry
      plain_context [summary_step 1 "user_query"; summary_step 2 "step:1"]
    = Ok ({[ 1 := error_response "req-p0" summarizer_meta "network_error"
                    "connection refused";
             2 := r2 ]},
          [UsedAgentEntry.mk "document_summarizer" "summarize" "error";
           UsedAgentEntry.mk "document_summarizer" "summarize" "success"])
    ∧ AgentResponse.status r2 = "success".
Proof. eexists. vm_compute. split; reflexivity. Qed.

Lemma C8_failed_chain_is_skipped_witness :
  chain_attempt_fails true raise_key_error env_success registry_without_tda
    plain_context
  ∧ execute_plan true raise_key_error env_success "q" registry_without_tda
      plain_context [builder_step 1; summary_step 2 "step:1"]
    = execute_plan_no_chain true raise_key_error env_success "q"
        registry_without_tda plain_context [builder_step 1; summary_step 2 "step:1"].
Proof.
  assert (chain_attempt_fails true raise_key_error env_success
            registry_without_tda plain_context) as Hfail.
  { left. split; [reflexivity|]. by eexists. }
  split; [exact Hfail|].
  apply (C8_failed_chain_is_skipped true raise_key_error env_success "q"
           registry_without_tda plain_context
           [builder_step 1; summary_step 2 "step:1"] Hfail).
Defined.

(** C2. The chain fires for the one-step plan of the builder; the request
    sent to the dependency resolver carries the default input, an empty
    text with the metadata, and not the override [{trigger:
    "database_update"}]: [call_agent] never reads [custom_input]. *)
Theorem C2_chained_request_ignores_override :
  ∃ st d,
    execute_plan_traced true raise_key_error env_success "q" full_registry
      plain_context [builder_step 1] = Ok st
    ∧ length (used_agents st) = 2%nat
    ∧ wire st !! 1%nat = Some d
    ∧ to d = "http://tda.local/handle"
    ∧ AgentRequest.agent_name (body d) = "task_dependency_agent"
    ∧ AgentRequest.intent (body d) = "task.resolve_dependencies"
    ∧ AgentRequest.input (body d)
      = JObj [("text", JStr "");
              ("metadata", JObj [("language", JStr "en"); ("extra", JObj [])])]
    ∧ AgentRequest.input (body d) ≠ trigger_payload.
Proof. eexists _, _. vm_compute. by repeat split. Qed.

(** C4. A plan with unique step ids, [1] for the builder and [2] for the
    next step: the chain fires once and records the resolver's response
    under the synthetic id [2]; the second step then overwrites it. The
    final ledger has the two plan ids and no entry of the resolver, while
    the usage log has three invocations. *)
Theorem C4_synthetic_entry_overwritten :
  let plan := [builder_step 1; summary_step 2 "user_query"] in
  ∃ st1 tda_response ledger used,
    NoDup (Step.step_id <$> plan)
    ∧ execute_plan_traced true raise_key_error env_success "q" full_registry
        plain_context [builder_step 1] = Ok st1
    ∧ step_outputs st1 !! 2 = Some tda_response
    ∧ AgentResponse.agent_name tda_response = "task_dependency_agent"
    ∧ execute_plan true raise_key_error env_success "q" full_registry
        plain_context plan = Ok (ledger, used)
    ∧ AgentResponse.agent_name <$> ledger = {[ 1 := "KnowledgeBaseBuilderAgent";
                                                2 := "document_summarizer" ]}
    ∧ size ledger = length plan
    ∧ UsedAgentEntry.name <$> used
      = ["KnowledgeBaseBuilderAgent"; "task_dependency_agent"; "document_summarizer"].
Proof.
  eexists _, _, _, _. split.
  { by apply (bool_decide_unpack _). }
  vm_compute. by repeat split.
Qed.

(** ** A lookup that answers for a missing name

    The executor guards the chained lookup and not the step's own lookup.
    Were the lookup to answer a missing name with a "not found" metadata
    value instead of raising, the chained call for an absent resolver
    would return [config_error], and that response would be recorded. *)

Example not_found_value_for_resolver_is_recorded :
  ∃ ledger tda_response,
    execute_plan true not_found_value env_success "q" registry_without_tda
      plain_context [builder_step 1]
    = Ok (ledger,
          [UsedAgentEntry.mk "KnowledgeBaseBuilderAgent" "create_task" "success";
           UsedAgentEntry.mk "task_dependency_agent" "task.resolve_dependencies"
             "error"])
    ∧ ledger !! 2 = Some tda_response
    ∧ AgentResponse.error tda_response
      = Some (ErrorModel.mk "config_error" "Agent endpoint/command not configured").
Proof. eexists _, _. vm_compute. by repeat split. Qed.

(** * Further properties of the invoker, the executor and the handler *)

Local Set Warnings "-clear-no-such-hyp".

(** ** What the invoker sends *)

(** X1. An invocation hands at most one request to the transport, and
    only for an [http] agent with a non-empty endpoint when the client is
    installed: the request goes to that endpoint under the agent's
    timeout and carries the fresh request id, the agent's name, the
    intent and the context as given. A [cli] agent, or a missing client,
    sends nothing. *)
Theorem call_agent_dispatch httpx E agent_meta intent text context custom_input :
  let sent := (call_agent httpx E (Some agent_meta) intent text context custom_input).1 in
  (length sent ≤ 1)%nat
  ∧ (∀ d, d ∈ sent →
       AgentMetadata.type agent_meta = "http" ∧ httpx = true
       ∧ AgentMetadata.endpoint agent_meta = Some (to d) ∧ to d ≠ ""
       ∧ deadline_ms d = AgentMetadata.timeout_ms agent_meta
       ∧ AgentRequest.request_id (body d) = uuid4 E
       ∧ AgentRequest.agent_name (body d) = AgentMetadata.name agent_meta
       ∧ AgentRequest.intent (body d) = intent
       ∧ AgentRequest.context (body d) = context)
  ∧ (AgentMetadata.type agent_meta = "cli" → sent = [])
  ∧ (httpx = false → sent = [])
  ∧ (AgentMetadata.endpoint agent_meta = None → sent = []).
Proof.
  cbv zeta. rewrite call_agent_unfold. unfold live, endpoint_truthy, endpoint_str.
  destruct (String.eqb (AgentMetadata.type agent_meta) "http") eqn:Ht;
    destruct (AgentMetadata.endpoint agent_meta) as [ep|] eqn:He;
    try destruct (str_truthy ep) eqn:Hep; destruct httpx; cbn;
    repeat apply conj; try done; try lia;
    try (intros d Hd; by apply elem_of_nil in Hd).
  - intros d Hd. apply list_elem_of_singleton in Hd as ->. cbn.
    string_test Ht. unfold str_truthy in Hep. apply negb_true_iff in Hep.
    string_test Hep. done.
  - string_test Ht. intros Hc. type_clash.
Qed.

(** X2. A response the invoker builds itself, that is every response
    other than the decoded body of a 200 reply, has status [error], no
    output, the agent's name, and the request id of this invocation, the
    one the request it sent carries. *)
Theorem call_agent_local_response httpx E agent_meta intent text context custom_input :
  ∃ sent r,
    call_agent httpx E (Some agent_meta) intent text context custom_input
    = (sent, Ok r)
    ∧ ((live httpx agent_meta = true
        ∧ reply_of E agent_meta intent text context = Reply 200 (Parsed r))
       ∨ (AgentResponse.status r = "error"
          ∧ AgentResponse.output r = None
          ∧ AgentResponse.agent_name r = AgentMetadata.name agent_meta
          ∧ AgentResponse.request_id r = uuid4 E
          ∧ ∀ d, d ∈ sent →
              AgentRequest.request_id (body d) = AgentResponse.request_id r)).
Proof.
  rewrite call_agent_unfold. destruct (live httpx agent_meta) eqn:Hl.
  - eexists _, _. split; [reflexivity|].
    destruct (reply_of E agent_meta intent text context) as [e|code [r'|e]] eqn:Hr;
      try case_decide; subst; try (by left);
      right; repeat apply conj; try done;
      intros d Hd; by apply list_elem_of_singleton in Hd as ->.
  - eexists _, _. split; [reflexivity|]. right. repeat apply conj; try done.
    intros d Hd. by apply elem_of_nil in Hd.
Qed.

(** ** The shape of a run *)

Lemma may_trigger_chain_condition step response :
  may_trigger step = false → chain_condition step response = false.
Proof.
  unfold may_trigger, chain_condition.
  destruct (String.eqb (Step.agent step) "KnowledgeBaseBuilderAgent"); [|done].
  cbn. intros ->. by rewrite andb_false_r.
Qed.

Section RunProperties.
Context (httpx : bool)
        (on_missing : string → py_result (option AgentMetadata.t))
        (env : Site → CallEnv) (query : string)
        (registry : list AgentMetadata.t) (context : Context.t).

Abbreviation lookup_agent name := (find_agent_by_name on_missing name registry).
Abbreviation run_step_ := (run_step httpx on_missing env query registry context).
Abbreviation exec_steps_ := (exec_steps httpx on_missing env query registry context).
Abbreviation auto_chain_ := (auto_chain httpx on_missing env registry context).
Abbreviation invoke_step_ := (invoke_step httpx env query context).
Abbreviation invoke_chained_ := (invoke_chained httpx env context).
Abbreviation execute_plan_ := (execute_plan httpx on_missing env query registry context).
Abbreviation execute_plan_traced_ :=
  (execute_plan_traced httpx on_missing env query registry context).

Lemma auto_chain_cases k st :
  auto_chain_ k st = st
  ∨ ∃ tda_meta sent tda_response,
      lookup_agent "task_dependency_agent" = Ok (Some tda_meta)
      ∧ invoke_chained_ k (Some tda_meta) = (sent, Ok tda_response)
      ∧ auto_chain_ k st = chained_state st tda_meta sent tda_response.
Proof.
  unfold auto_chain, chain_body, invoke_chained.
  destruct (lookup_agent "task_dependency_agent") as [[tda|]|e]; cbn.
  - right.
    destruct (call_agent_returns httpx (env (Chained k)) tda
                "task.resolve_dependencies" "" context (Some trigger_payload))
      as (sent & r & Hcall).
    exists tda, sent, r. rewrite Hcall. by cbn.
  - left. destruct (call_agent _ _ None _ _ _ _) as [sent called] eqn:Hcall.
    unfold call_agent in Hcall. injection Hcall as <- <-. cbn.
    rewrite app_nil_r. by destruct st.
  - by left.
Qed.

Lemma run_step_cases k st step st' :
  run_step_ k st step = Ok st' →
  ∃ agent_meta sent response,
    lookup_agent (Step.agent step) = Ok (Some agent_meta)
    ∧ invoke_step_ k st step agent_meta = (sent, Ok response)
    ∧ let st1 := record_step st step (AgentMetadata.name agent_meta) sent response in
      st' = st1
      ∨ (chain_condition step response = true
         ∧ ∃ tda_meta sent' tda_response,
             lookup_agent "task_dependency_agent" = Ok (Some tda_meta)
             ∧ invoke_chained_ k (Some tda_meta) = (sent', Ok tda_response)
             ∧ st' = chained_state st1 tda_meta sent' tda_response).
Proof.
  intros Hrun.
  destruct (lookup_agent (Step.agent step)) as [[m|]|e] eqn:Hfind.
  - destruct (invoke_step_returns httpx env query context k st step m)
      as (sent & r & Hcall).
    rewrite (run_step_found _ _ _ _ _ _ _ _ _ _ _ _ Hfind Hcall) in Hrun.
    injection Hrun as <-. exists m, sent, r. split_and!; try done. cbv zeta.
    destruct (chain_condition step r); [|by left].
    destruct (auto_chain_cases k
                (record_step st step (AgentMetadata.name m) sent r))
      as [->|(tda & sent' & tr & Htda & Hcall' & ->)]; [by left|].
    right. split; [done|]. by exists tda, sent', tr.
  - unfold run_step in Hrun. rewrite Hfind in Hrun. cbn in Hrun.
    rewrite resolve_input_refines in Hrun. by cbn in Hrun.
  - unfold run_step in Hrun. rewrite Hfind in Hrun. by cbn in Hrun.
Qed.

(** A property of the state that every completed step keeps holds at the
    end of every completed run. *)
Lemma exec_steps_invariant (P : ExecState → Prop) :
  (∀ k st step st', P st → run_step_ k st step = Ok st' → P st') →
  ∀ steps k st st', P st → exec_steps_ k steps st = Ok st' → P st'.
Proof.
  intros Hstep. induction steps as [|s steps IH]; intros k st st' HP Hrun; simpl in Hrun.
  - by injection Hrun as <-.
  - destruct (run_step_ k st s) as [st1|e] eqn:Hs; [|done]. cbn in Hrun.
    eapply IH; [|exact Hrun]. by eapply Hstep.
Qed.

(** X3. The success path of the chain: when the step of the builder with
    intent [create_task] returns [success] and the registry has the
    dependency resolver, the step leaves exactly one more ledger entry than
    its own, under the largest key plus one, which is above the step's id,
    and two usage entries, the step's and then the resolver's. *)
Theorem chain_success_appends k st step agent_meta sent response tda_meta :
  lookup_agent (Step.agent step) = Ok (Some agent_meta) →
  invoke_step_ k st step agent_meta = (sent, Ok response) →
  chain_condition step response = true →
  lookup_agent "task_dependency_agent" = Ok (Some tda_meta) →
  ∃ sent' tda_response,
    invoke_chained_ k (Some tda_meta) = (sent', Ok tda_response)
    ∧ let ledger := <[Step.step_id step := response]> (step_outputs st) in
      let next := next_step_id ledger in
      run_step_ k st step
      = Ok (mkExecState (<[next := tda_response]> ledger)
              (used_agents st ++
                 [UsedAgentEntry.mk (AgentMetadata.name agent_meta)
                    (Step.intent step) "success";
                  UsedAgentEntry.mk (AgentMetadata.name tda_meta)
                    "task.resolve_dependencies"
                    (AgentResponse.status tda_response)])
              (wire st ++ sent ++ sent'))
      ∧ Step.step_id step < next
      ∧ <[next := tda_response]> ledger !! Step.step_id step = Some response
      ∧ size (<[next := tda_response]> ledger) = S (size ledger).
Proof.
  intros Hfind Hcall Hcond Htda.
  destruct (call_agent_returns httpx (env (Chained k)) tda_meta
              "task.resolve_dependencies" "" context (Some trigger_payload))
    as (sent' & tr & Hcall').
  exists sent', tr. split; [exact Hcall'|]. cbv zeta.
  set (ledger := <[Step.step_id step := response]> (step_outputs st)).
  assert (ledger !! Step.step_id step = Some response) as Hin
    by apply lookup_insert_eq.
  pose proof (next_step_id_above ledger _ _ Hin) as Hlt.
  split_and!.
  - rewrite (run_step_found _ _ _ _ _ _ _ _ _ _ _ _ Hfind Hcall). cbv zeta.
    rewrite Hcond. unfold auto_chain, chain_body. rewrite Htda.
    unfold invoke_chained in Hcall'. rewrite Hcall'. cbn.
    unfold chain_condition in Hcond.
    apply andb_true_iff in Hcond as [[_ Hs]%andb_true_iff _].
    string_test Hs. rewrite Hs. by rewrite <- !app_assoc.
  - done.
  - rewrite lookup_insert_ne; [done|lia].
  - apply map_size_insert_None, next_step_id_fresh.
Qed.

(** X4. A plan with no step of the builder with intent [create_task]
    never reaches the dependency resolver: its execution is the loop
    without the chain attempt, whatever the registry and the replies. *)
Theorem no_trigger_no_chain plan :
  forallb (λ s, negb (may_trigger s)) plan = true →
  execute_plan_traced_ plan
  = exec_steps_no_chain httpx on_missing env query registry context 0 plan
      initial_state
  ∧ execute_plan_ plan
    = execute_plan_no_chain httpx on_missing env query registry context plan.
Proof.
  intros Hplan.
  assert (∀ steps k st,
            forallb (λ s, negb (may_trigger s)) steps = true →
            exec_steps_ k steps st
            = exec_steps_no_chain httpx on_missing env query registry context
                k steps st) as Hsame.
  { induction steps as [|s steps IH]; intros k st Hs; simpl; [done|].
    simpl in Hs. apply andb_true_iff in Hs as [Hs Hrest].
    apply negb_true_iff in Hs.
    assert (run_step_ k st s
            = run_step_no_chain httpx on_missing env query registry context k st s)
      as ->.
    { unfold run_step, run_step_no_chain.
      destruct (lookup_agent (Step.agent s)) as [v|e]; cbn; [|done].
      destruct (resolve_input _ _ _) as [text|e]; cbn; [|done].
      destruct (call_agent _ _ v _ _ _ _) as [sent [r|e]]; cbn; [|done].
      destruct (meta_name v) as [n|e]; cbn; [|done].
      by rewrite may_trigger_chain_condition. }
    destruct (run_step_no_chain _ _ _ _ _ _ k st s) as [st'|e]; cbn; [|done].
    by apply IH. }
  unfold execute_plan, execute_plan_no_chain, execute_plan_traced.
  by rewrite Hsame.
Qed.

Lemma no_trigger_run steps :
  forallb (λ s, negb (may_trigger s)) steps = true →
  ∀ k st st', exec_steps_ k steps st = Ok st' →
    dom (step_outputs st')
    = dom (step_outputs st) ∪ list_to_set (Step.step_id <$> steps)
    ∧ UsedAgentEntry.intent <$> used_agents st'
      = ((UsedAgentEntry.intent <$> used_agents st) ++ (Step.intent <$> steps))%list.
Proof.
  induction steps as [|s steps IH]; intros Hs k st st' Hrun; simpl in *.
  - injection Hrun as <-. split; [set_solver|by rewrite app_nil_r].
  - apply andb_true_iff in Hs as [Hs Hrest]. apply negb_true_iff in Hs.
    destruct (run_step_ k st s) as [st1|e] eqn:Hstep; [|done]. cbn in Hrun.
    destruct (IH Hrest _ _ _ Hrun) as [Hdom Hint]. rewrite Hdom, Hint.
    apply run_step_cases in Hstep as (m & sent & r & _ & _ & Hst1).
    cbv zeta in Hst1. destruct Hst1 as [->|[Hc _]].
    + cbn. rewrite dom_insert_L, fmap_app. cbn. split; [set_solver|].
      by rewrite <- app_assoc.
    + by rewrite may_trigger_chain_condition in Hc.
Qed.

(** X5. For a plan with no step of the builder with intent [create_task]
    whose agents the lookup all answers for, the execution returns a
    ledger whose keys are exactly the plan's step ids and a usage log with
    one entry per step, in plan order; with unique step ids the ledger has
    as many entries as the plan has steps. *)
Theorem no_trigger_ledger_keys plan :
  forallb (λ s, negb (may_trigger s)) plan = true →
  (∀ s, s ∈ plan → ∃ m, lookup_agent (Step.agent s) = Ok (Some m)) →
  ∃ ledger used,
    execute_plan_ plan = Ok (ledger, used)
    ∧ dom ledger = list_to_set (Step.step_id <$> plan)
    ∧ UsedAgentEntry.intent <$> used = Step.intent <$> plan
    ∧ (NoDup (Step.step_id <$> plan) → size ledger = length plan).
Proof.
  intros Hplan Hfound.
  destruct (exec_steps_total httpx on_missing env query registry context
              0 plan initial_state Hfound) as (st & Hst & _).
  exists (step_outputs st), (used_agents st).
  destruct (no_trigger_run plan Hplan _ _ _ Hst) as [Hdom Hint].
  cbn in Hdom, Hint. rewrite dom_empty_L, (left_id_L ∅ (∪)) in Hdom.
  split_and!.
  - unfold execute_plan, execute_plan_traced. by rewrite Hst.
  - done.
  - done.
  - intros Hnd. rewrite <- size_dom, Hdom, size_list_to_set by done.
    by rewrite length_fmap.
Qed.

Lemma run_step_growth k st step st' :
  run_step_ k st step = Ok st' →
  (S (length (used_agents st)) ≤ length (used_agents st')
   ≤ S (S (length (used_agents st))))%nat
  ∧ (size (step_outputs st') + length (used_agents st)
     ≤ size (step_outputs st) + length (used_agents st'))%nat
  ∧ (length (wire st') + length (used_agents st)
     ≤ length (wire st) + length (used_agents st'))%nat
  ∧ dom (step_outputs st) ⊆ dom (step_outputs st')
  ∧ Step.step_id step ∈ dom (step_outputs st').
Proof.
  intros Hrun.
  apply run_step_cases in Hrun as (m & sent & r & _ & Hcall & Hst).
  cbv zeta in Hst.
  set (st1 := record_step st step (AgentMetadata.name m) sent r) in *.
  assert (length sent ≤ 1)%nat as Hsent.
  { unfold invoke_step in Hcall. rewrite call_agent_unfold in Hcall.
    destruct (live httpx m); injection Hcall as <- _; cbn; lia. }
  assert (length (used_agents st1) = S (length (used_agents st))) as Hused.
  { unfold st1, record_step. cbn. rewrite length_app. cbn. lia. }
  assert (size (step_outputs st1) ≤ S (size (step_outputs st)))%nat as Hsize.
  { unfold st1, record_step. cbn.
    destruct (step_outputs st !! Step.step_id step) eqn:Hl.
    - erewrite map_size_insert_Some by done. lia.
    - rewrite map_size_insert_None by done. lia. }
  assert (length (wire st1) ≤ S (length (wire st)))%nat as Hwire.
  { unfold st1, record_step. cbn. rewrite length_app. lia. }
  assert (dom (step_outputs st1) = {[Step.step_id step]} ∪ dom (step_outputs st))
    as Hdom by (unfold st1, record_step; cbn; apply dom_insert_L).
  destruct Hst as [->|(_ & tda & sent' & tr & _ & Hcall' & ->)].
  - split_and!; try lia; set_solver.
  - assert (length sent' ≤ 1)%nat as Hsent'.
    { unfold invoke_chained in Hcall'. rewrite call_agent_unfold in Hcall'.
      destruct (live httpx tda); injection Hcall' as <- _; cbn; lia. }
    unfold chained_state. cbn [step_outputs used_agents wire].
    rewrite map_size_insert_None by apply next_step_id_fresh.
    rewrite dom_insert_L, !length_app. cbn [length].
    split_and!; try lia; set_solver.
Qed.

(** X6. Whenever [execute_plan] returns, the usage log has at least one
    and at most two entries per plan step, the ledger has no more entries
    than the usage log, and no more requests were sent than the usage log
    has entries. *)
Theorem usage_log_bounds plan st :
  execute_plan_traced httpx on_missing env query registry context plan = Ok st →
  (length plan ≤ length (used_agents st) ≤ 2 * length plan)%nat
  ∧ (size (step_outputs st) ≤ length (used_agents st))%nat
  ∧ (length (wire st) ≤ length (used_agents st))%nat.
Proof.
  unfold execute_plan_traced.
  assert (∀ steps k st0 st1, exec_steps_ k steps st0 = Ok st1 →
            (length (used_agents st0) + length steps ≤ length (used_agents st1)
             ≤ length (used_agents st0) + 2 * length steps)%nat
            ∧ (size (step_outputs st1) + length (used_agents st0)
               ≤ size (step_outputs st0) + length (used_agents st1))%nat
            ∧ (length (wire st1) + length (used_agents st0)
               ≤ length (wire st0) + length (used_agents st1))%nat) as Hgen.
  { induction steps as [|s steps IH]; intros k st0 st1 Hrun; simpl in Hrun.
    - injection Hrun as <-. cbn. lia.
    - destruct (run_step_ k st0 s) as [st'|e] eqn:Hs; [|done]. cbn in Hrun.
      apply run_step_growth in Hs as (? & ? & ? & _).
      apply IH in Hrun as (? & ? & ?). cbn [length]. lia. }
  intros Hrun. apply Hgen in Hrun as (? & ? & ?). cbn in *.
  rewrite map_size_empty in *. lia.
Qed.

(** X7. Ledger entries are overwritten but never removed: whenever
    [execute_plan] returns, the id of every step of the plan is a key of
    the ledger. *)
Theorem ledger_keeps_every_step_id plan ledger used :
  execute_plan httpx on_missing env query registry context plan
  = Ok (ledger, used) →
  ∀ s, s ∈ plan → is_Some (ledger !! Step.step_id s).
Proof.
  unfold execute_plan, execute_plan_traced.
  destruct (exec_steps_ 0 plan initial_state) as [st|e] eqn:Hrun; [|done].
  cbn. intros [= <- <-].
  assert (∀ steps k st0 st1, exec_steps_ k steps st0 = Ok st1 →
            dom (step_outputs st0) ⊆ dom (step_outputs st1)
            ∧ ∀ s, s ∈ steps → Step.step_id s ∈ dom (step_outputs st1)) as Hgen.
  { induction steps as [|s0 steps IH]; intros k st0 st1 Hr; simpl in Hr.
    - injection Hr as <-. split; [done|]. intros s Hs. by apply elem_of_nil in Hs.
    - destruct (run_step_ k st0 s0) as [st'|e] eqn:Hs0; [|done]. cbn in Hr.
      apply run_step_growth in Hs0 as (_ & _ & _ & Hsub & Hin).
      apply IH in Hr as [Hsub' Hall]. split; [set_solver|].
      intros s Hs. apply elem_of_cons in Hs as [->|Hs]; [set_solver|by apply Hall]. }
  intros s Hs. apply elem_of_dom. by apply (Hgen _ _ _ _ Hrun).
Qed.

(** X8. The lookup of a step's agent is not guarded: when it raises, at
    whatever position of the plan and after whatever the earlier steps
    did, [execute_plan] raises the same exception and returns neither
    ledger nor usage log; when it answers [None], the invocation raises an
    [AttributeError], with the same effect. *)
Theorem lookup_exception_aborts pre step post st_pre :
  exec_steps_ 0 pre initial_state = Ok st_pre →
  (∀ e, lookup_agent (Step.agent step) = Raise e →
     execute_plan_ (pre ++ step :: post)%list = Raise e)
  ∧ (lookup_agent (Step.agent step) = Ok None →
     ∃ message,
       execute_plan_ (pre ++ step :: post)%list = Raise (AttributeError message)).
Proof.
  intros Hpre. unfold execute_plan, execute_plan_traced.
  rewrite exec_steps_app, Hpre. cbn. unfold run_step. split.
  - intros e ->. reflexivity.
  - intros ->. cbn. rewrite resolve_input_refines. cbn. by eexists.
Qed.

Lemma call_agent_sent httpx' E agent_meta intent text ci d :
  d ∈ (call_agent httpx' E agent_meta intent text context ci).1 →
  AgentRequest.context (body d) = context
  ∧ AgentRequest.input (body d)
    = JObj [("text", JStr text); ("metadata", JObj (build_metadata context))].
Proof.
  intros Hd. destruct agent_meta as [m|]; [|by apply elem_of_nil in Hd].
  rewrite call_agent_unfold in Hd.
  destruct (live httpx' m); [|by apply elem_of_nil in Hd].
  by apply list_elem_of_singleton in Hd as ->.
Qed.

(** X9. Every request of a run, the chained ones included, carries the
    context [execute_plan] was given, unchanged, and the metadata built
    from it: the upload of the context goes to every agent that is
    reached. *)
Theorem every_request_carries_the_context plan st :
  execute_plan_traced_ plan = Ok st →
  ∀ d, d ∈ wire st →
    AgentRequest.context (body d) = context
    ∧ ∃ text, AgentRequest.input (body d)
              = JObj [("text", JStr text);
                      ("metadata", JObj (build_metadata context))].
Proof.
  unfold execute_plan_traced.
  set (P := λ st0 : ExecState, ∀ d, d ∈ wire st0 →
              AgentRequest.context (body d) = context
              ∧ ∃ text, AgentRequest.input (body d)
                        = JObj [("text", JStr text);
                                ("metadata", JObj (build_metadata context))]).
  intros Hplan.
  refine (exec_steps_invariant P _ plan 0%nat initial_state st _ Hplan).
  - intros k st0 step st' HP Hrun.
    apply run_step_cases in Hrun as (m & sent & r & _ & Hcall & Hst).
    cbv zeta in Hst.
    assert (P (record_step st0 step (AgentMetadata.name m) sent r)) as HP1.
    { intros d Hd. cbn in Hd. apply elem_of_app in Hd as [Hd|Hd]; [by apply HP|].
      unfold invoke_step in Hcall.
      destruct (call_agent_sent httpx (env (Primary k)) (Some m) (Step.intent step)
                  (resolve_spec (Step.input_source step) query (step_outputs st0))
                  None d) as [Hc Hi].
      { by rewrite Hcall. }
      split; [done|by eexists]. }
    destruct Hst as [->|(_ & tda & sent' & tr & _ & Hcall' & ->)]; [done|].
    intros d Hd. cbn [chained_state wire] in Hd.
    apply elem_of_app in Hd as [Hd|Hd]; [by apply HP1|].
    unfold invoke_chained in Hcall'.
    destruct (call_agent_sent httpx (env (Chained k)) (Some tda)
                "task.resolve_dependencies" "" (Some trigger_payload) d) as [Hc Hi].
    { by rewrite Hcall'. }
    split; [done|by eexists].
  - intros d Hd. by apply elem_of_nil in Hd.
Qed.
End RunProperties.

(** ** Printed step ids *)

(** The value of a digit character that stands in the goal. *)
Ltac eval_digit :=
  repeat match goal with
         | |- context [Z.of_nat ?n] =>
             let v := eval vm_compute in (Z.of_nat n) in
             progress change (Z.of_nat n) with v
         end.

Lemma digits_acc_pos d p :
  digits_acc (Z.pos p) true (NilEmpty.string_of_uint d)
  = Some (Z.pos (Pos.of_uint_acc d p)).
Proof.
  revert p. induction d; intros p; cbn [NilEmpty.string_of_uint Pos.of_uint_acc];
    [reflexivity|..]; cbn -[Z.mul Z.add Pos.mul Pos.add];
    (etransitivity; [|apply IHd]); f_equal; eval_digit; lia.
Qed.

Lemma digits_acc_zero d :
  digits_acc 0 true (NilEmpty.string_of_uint d) = Some (Z.of_N (Pos.of_uint d)).
Proof.
  induction d; cbn [NilEmpty.string_of_uint Pos.of_uint]; [reflexivity|..];
    cbn -[Z.mul Z.add]; eval_digit; try exact IHd; apply digits_acc_pos.
Qed.

Lemma digits_acc_printed d :
  digits_acc 0 false (NilZero.string_of_uint d) = Some (Z.of_N (Pos.of_uint d)).
Proof.
  destruct d; cbn [NilZero.string_of_uint NilEmpty.string_of_uint Pos.of_uint];
    [reflexivity|..]; cbn -[Z.mul Z.add]; eval_digit;
    first [apply digits_acc_zero | apply digits_acc_pos].
Qed.

Lemma is_id_char_plain a :
  is_id_char a = true →
  is_space a = false ∧ Ascii.eqb a "." = false ∧ Ascii.eqb a ":" = false.
Proof. destruct a as [[] [] [] [] [] [] [] []]; vm_compute; by intuition. Qed.

Lemma id_chars_uint d : id_chars (NilEmpty.string_of_uint d) = true.
Proof. induction d; [done|..]; cbn [NilEmpty.string_of_uint id_chars]; by rewrite IHd. Qed.

Lemma id_chars_printed z : id_chars (string_of_Z z) = true.
Proof.
  unfold string_of_Z.
  assert (∀ d, id_chars (NilZero.string_of_uint d) = true) as Hu.
  { intros d. destruct d; [done|..]; apply id_chars_uint. }
  destruct z; cbn [Z.to_int NilZero.string_of_int]; [done|apply Hu|].
  cbn [id_chars]. by rewrite Hu.
Qed.

Lemma id_chars_untouched s :
  id_chars s = true → lstrip s = s ∧ rstrip s = s ∧ leading_id s = s.
Proof.
  induction s as [|a s IH]; [done|]. cbn [id_chars].
  intros [Ha Hs]%andb_true_iff. destruct (IH Hs) as (_ & Hr & Hl).
  destruct (is_id_char_plain a Ha) as (Hsp & Hdot & Hcol).
  cbn [lstrip rstrip leading_id]. rewrite Hsp, Hr, Hdot, Hcol, Hl. cbn.
  by destruct s.
Qed.

(** [int(str(z))] is [z]. *)
Lemma py_int_printed z : py_int (string_of_Z z) = Ok z.
Proof.
  unfold py_int.
  destruct (id_chars_untouched _ (id_chars_printed z)) as (-> & -> & _).
  unfold string_of_Z. destruct z as [|p|p]; cbn [Z.to_int NilZero.string_of_int].
  - reflexivity.
  - assert (digits_acc 0 false (NilZero.string_of_uint (Pos.to_uint p))
            = Some (Z.pos p)) as Hd.
    { rewrite digits_acc_printed. by rewrite Unsigned.of_to. }
    destruct (Pos.to_uint p); cbn in Hd |- *; by rewrite ?Hd.
  - rewrite digits_acc_printed, Unsigned.of_to. reflexivity.
Qed.

Lemma leading_id_printed z field :
  leading_id (string_of_Z z) = string_of_Z z
  ∧ leading_id (string_of_Z z +:+ "." +:+ field) = string_of_Z z.
Proof.
  destruct (id_chars_untouched _ (id_chars_printed z)) as (_ & _ & H).
  split; [done|]. by apply leading_id_dotted.
Qed.

(** X10. A reference written with the printed id of a ledger entry that
    has an output, with or without a dotted field, resolves to the string
    form of that entry's result, for every integer id, the negative ones
    included. *)
Theorem printed_reference_resolves (ledger : gmap Z AgentResponse.t) n prior o q field :
  ledger !! n = Some prior →
  AgentResponse.output prior = Some o →
  resolve_input ("step:" +:+ string_of_Z n) q ledger
  = Ok (py_str (OutputModel.result o))
  ∧ resolve_input ("step:" +:+ string_of_Z n +:+ "." +:+ field) q ledger
    = Ok (py_str (OutputModel.result o)).
Proof.
  intros Hl Ho. destruct (leading_id_printed n field) as [H1 H2].
  rewrite !resolve_input_refines. unfold resolve_spec, referenced_output.
  destruct (step_reference_shape (string_of_Z n)) as [-> ->].
  destruct (step_reference_shape (string_of_Z n +:+ "." +:+ field)) as [-> ->].
  cbn. rewrite H1, H2. unfold parse_id. rewrite py_int_printed. cbn.
  rewrite Hl. cbn. by rewrite Ho.
Qed.

Lemma printed_reference_resolves_witness :
  resolve_input ("step:" +:+ string_of_Z (-3)) "q"
    {[ -3 := success_reply (request_of (env_success (Primary 0)) summarizer_meta
                              "summarize" "q" plain_context) ]}
  = Ok "done".
Proof.
  refine (proj1 (printed_reference_resolves _ (-3)
                   (success_reply (request_of (env_success (Primary 0))
                                     summarizer_meta "summarize" "q" plain_context))
                   (OutputModel.mk (PyStr "done")) "q" "result" _ eq_refl)).
  apply lookup_singleton_eq.
Defined.

(** X11. A step that refers to a step whose invocation the invoker itself
    answered (an agent that is not reachable by HTTP, a transport fault, a
    reply that is not 200 or does not decode) is given the user query: such
    a response has no output. *)
Theorem reference_to_failed_step_gets_query httpx E agent_meta intent text context
    (ledger : gmap Z AgentResponse.t) n q :
  (∀ r, reply_of E agent_meta intent text context = Reply 200 (Parsed r) →
        live httpx agent_meta = false) →
  ∃ sent response,
    call_agent httpx E (Some agent_meta) intent text context None
    = (sent, Ok response)
    ∧ resolve_input ("step:" +:+ string_of_Z n) q (<[n := response]> ledger)
      = Ok q.
Proof.
  intros Hlocal.
  destruct (call_agent_local_response httpx E agent_meta intent text context None)
    as (sent & r & Hcall & Hr).
  exists sent, r. split; [done|].
  assert (AgentResponse.output r = None) as Hout.
  { destruct Hr as [[Hl Hrep]|(_ & Ho & _)]; [|done].
    rewrite (Hlocal _ Hrep) in Hl. done. }
  destruct (leading_id_printed n "") as [H1 _].
  rewrite resolve_input_refines. unfold resolve_spec, referenced_output.
  destruct (step_reference_shape (string_of_Z n)) as [-> ->].
  cbn. rewrite H1. unfold parse_id. rewrite py_int_printed. cbn.
  rewrite lookup_insert_eq. cbn. by rewrite Hout.
Qed.

(** ** The payload of an upload marker *)

Lemma comma_free_app s t :
  comma_free (s +:+ t) = comma_free s && comma_free t.
Proof.
  induction s as [|a s IH]; [done|].
  change (String a s +:+ t) with (String a (s +:+ t)). cbn [comma_free].
  by rewrite IH, andb_assoc.
Qed.

Lemma no_marker_inside p rest :
  comma_free p = true → p ≠ "" →
  String.prefix "base64," (p +:+ "base64," +:+ rest) = false.
Proof.
  intros Hp Hne. rewrite prefix_strip_prefix.
  destruct (strip_prefix "base64," (p +:+ "base64," +:+ rest)) as [r|] eqn:Hs;
    [|done].
  exfalso. apply strip_prefix_spec in Hs.
  destruct p as [|a1 [|a2 [|a3 [|a4 [|a5 [|a6 [|a7 p]]]]]]]; [done|..];
    cbv [String.append] in Hs; simplify_eq.
Qed.

Lemma comma_free_no_comma s : comma_free s = true → contains "," s = false.
Proof.
  induction s as [|a s IH]; [done|]. cbn [comma_free contains].
  intros [Ha Hs]%andb_true_iff. rewrite (IH Hs), orb_false_r.
  rewrite prefix_strip_prefix. cbn [strip_prefix].
  apply negb_true_iff in Ha. rewrite Ascii.eqb_sym in Ha. by rewrite Ha.
Qed.

Lemma comma_free_no_marker s : comma_free s = true → contains "base64," s = false.
Proof.
  induction s as [|a s IH]; [done|]. intros Hc. cbn [contains].
  assert (comma_free s = true) as Hs.
  { cbn in Hc. by apply andb_true_iff in Hc as [_ ?]. }
  rewrite (IH Hs), orb_false_r, prefix_strip_prefix.
  destruct (strip_prefix "base64," (String a s)) as [r|] eqn:Hr; [|done].
  apply strip_prefix_spec in Hr. rewrite Hr, comma_free_app in Hc. done.
Qed.

Lemma py_split_no_match sep s : contains sep s = false → py_split sep s = [s].
Proof.
  unfold py_split. induction s as [|a s IH]; [done|]. cbn [contains py_split_aux].
  intros [Hp Hs]%orb_false_iff. rewrite Hp, (IH Hs). done.
Qed.

Lemma py_split_at_marker rest :
  py_split "base64," ("base64," +:+ rest) = "" :: py_split "base64," rest.
Proof.
  unfold py_split at 1.
  change ("base64," +:+ rest) with (String "b" ("ase64," +:+ rest)).
  cbn [py_split_aux].
  change (String "b" ("ase64," +:+ rest)) with ("base64," +:+ rest).
  rewrite prefix_app. reflexivity.
Qed.

Lemma py_split_nonempty sep s : ∃ h t, py_split sep s = h :: t.
Proof.
  unfold py_split. generalize 0%nat. induction s as [|a s IH]; intros n.
  - by eexists _, _.
  - cbn [py_split_aux]. destruct n as [|n]; [|apply IH].
    destruct (String.prefix sep (String a s)); [by eexists _, _|].
    destruct (IH 0%nat) as (h & t & ->). by eexists _, _.
Qed.

Lemma py_split_data_url p rest :
  comma_free p = true →
  py_split "base64," (p +:+ "base64," +:+ rest) = p :: py_split "base64," rest.
Proof.
  intros Hp. induction p as [|a p IH]; [apply py_split_at_marker|].
  assert (comma_free p = true) as Hp'.
  { cbn in Hp. by apply andb_true_iff in Hp as [_ ?]. }
  pose proof (no_marker_inside (String a p) rest Hp) as Hno.
  change (String a p +:+ "base64," +:+ rest)
    with (String a (p +:+ "base64," +:+ rest)) in *.
  unfold py_split in *. cbn [py_split_aux]. rewrite Hno by done.
  by rewrite (IH Hp').
Qed.

Lemma py_split_aux_nonempty sep n s : ∃ h t, py_split_aux sep n s = h :: t.
Proof.
  revert n. induction s as [|a s IH]; intros n.
  - by eexists _, _.
  - cbn [py_split_aux]. destruct n as [|n]; [|apply IH].
    destruct (String.prefix sep (String a s)); [by eexists _, _|].
    destruct (IH 0%nat) as (h & t & ->). by eexists _, _.
Qed.

Lemma py_split_marker_found s :
  contains "base64," s = true →
  ∃ h1 h2 t, py_split "base64," s = h1 :: h2 :: t.
Proof.
  unfold py_split. induction s as [|a s IH]; [done|].
  cbn [contains py_split_aux].
  destruct (String.prefix "base64," (String a s)).
  - intros _.
    destruct (py_split_aux_nonempty "base64," (String.length "base64," - 1) s)
      as (h & t & ->).
    by eexists _, _, _.
  - cbn. intros Hs. destruct (IH Hs) as (h1 & h2 & t & ->). by eexists _, _, _.
Qed.

Lemma contains_here sub r : contains sub (sub +:+ r) = true.
Proof.
  pose proof (prefix_app sub r) as H.
  destruct (sub +:+ r); cbn [contains]; by rewrite H.
Qed.

Lemma contains_later a sub s :
  contains sub s = true → contains sub (String a s) = true.
Proof. intros H. cbn [contains]. by rewrite H, orb_true_r. Qed.

Lemma contains_marker p rest : contains "base64," (p +:+ "base64," +:+ rest) = true.
Proof.
  induction p as [|a p IH].
  - apply (contains_here "base64," rest).
  - change (String a p +:+ "base64," +:+ rest)
      with (String a (p +:+ "base64," +:+ rest)).
    cbn [contains]. by rewrite IH, orb_true_r.
Qed.

(** The pieces of a split at commas: the text itself when it has no comma,
    and otherwise a last piece without comma that follows the last comma. *)
Lemma py_split_comma s :
  (comma_free s = true ∧ py_split "," s = [s])
  ∨ ∃ head pieces r,
      py_split "," s = (pieces ++ [r])%list ∧ pieces ≠ []
      ∧ s = head +:+ "," +:+ r ∧ comma_free r = true.
Proof.
  unfold py_split. induction s as [|a s IH]; [by left|].
  cbn [py_split_aux comma_free]. rewrite prefix_strip_prefix. cbn [strip_prefix].
  rewrite (Ascii.eqb_sym "," a).
  destruct (Ascii.eqb a ",") eqn:Ha.
  - apply Ascii.eqb_eq in Ha as ->. right. cbn.
    destruct IH as [[Hc ->]|(head & pieces & r & -> & Hne & -> & Hr)].
    + by exists "", [""], s.
    + exists ("," +:+ head), ("" :: pieces), r. done.
  - cbn. destruct IH as [[Hc ->]|(head & pieces & r & -> & Hne & -> & Hr)].
    + by left.
    + right. destruct pieces as [|h pieces]; [done|].
      exists (String a head), (String a h :: pieces), r. done.
Qed.

(** X12. The payload of a data URL: for a marker whose data URL part is
    a comma-free header, the text [base64,] and a payload in which
    [base64,] does not occur, as in [data:application/pdf;base64,JVBERi0x],
    the handler extracts exactly the payload. *)
Theorem extract_base64_data_url header payload :
  comma_free header = true →
  contains "base64," payload = false →
  extract_base64 (header +:+ "base64," +:+ payload) = Ok payload.
Proof.
  intros Hh Hp. unfold extract_base64.
  rewrite contains_marker, (py_split_data_url _ _ Hh), (py_split_no_match _ _ Hp).
  reflexivity.
Qed.

(** X13. The extraction never raises; a data URL part without a comma is
    taken whole; one with a comma and no [base64,] gives the text after
    its last comma, which has no comma. *)
Theorem extract_base64_fallbacks data_url_part :
  (∃ base64_data, extract_base64 data_url_part = Ok base64_data)
  ∧ (contains "," data_url_part = false →
     extract_base64 data_url_part = Ok data_url_part)
  ∧ (contains "base64," data_url_part = false →
     contains "," data_url_part = true →
     ∃ head base64_data,
       extract_base64 data_url_part = Ok base64_data
       ∧ data_url_part = head +:+ "," +:+ base64_data
       ∧ comma_free base64_data = true).
Proof.
  assert (contains "base64," data_url_part = false →
          contains "," data_url_part = true →
          ∃ head base64_data,
            extract_base64 data_url_part = Ok base64_data
            ∧ data_url_part = head +:+ "," +:+ base64_data
            ∧ comma_free base64_data = true) as Hlast.
  { intros Hm Hc. unfold extract_base64. rewrite Hm, Hc.
    destruct (py_split_comma data_url_part)
      as [[Hfree _]|(head & pieces & r & -> & _ & Hd & Hr)].
    - by rewrite comma_free_no_comma in Hc.
    - exists head, r. unfold py_last. by rewrite last_snoc. }
  split_and!; [|
    |exact Hlast].
  - destruct (contains "base64," data_url_part) eqn:Hm.
    + unfold extract_base64. rewrite Hm.
      destruct (py_split_marker_found _ Hm) as (h1 & h2 & t & ->). by eexists.
    + destruct (contains "," data_url_part) eqn:Hc.
      * destruct (Hlast eq_refl eq_refl) as (_ & r & -> & _). by eexists.
      * unfold extract_base64. rewrite Hm, Hc. by eexists.
  - intros Hc. unfold extract_base64. rewrite Hc.
    destruct (contains "base64," data_url_part) eqn:Hm; [|done].
    exfalso. clear -Hc Hm.
    induction data_url_part as [|a s IH]; [done|].
    cbn [contains] in Hc, Hm. apply orb_false_iff in Hc as [Ha Hs].
    apply orb_true_iff in Hm as [Hm|Hm]; [|by apply IH].
    rewrite prefix_strip_prefix in Hm.
    destruct (strip_prefix "base64," (String a s)) as [r|] eqn:Hr; [|done].
    apply strip_prefix_spec in Hr. clear -Hr Hs.
    assert (contains "," ("ase64," +:+ r) = true) as Hin.
    { change ("ase64," +:+ r)
        with (String "a" (String "s" (String "e" (String "6"
                (String "4" ("," +:+ r)))))).
      do 5 apply contains_later. apply contains_here. }
    change ("base64," +:+ r) with (String "b" ("ase64," +:+ r)) in Hr.
    injection Hr as _ ->. by rewrite Hin in Hs.
Qed.

(** ** From the handler to the invoker, and back *)

Lemma upload_fields base64_data filename mime_type fallback :
  upload_field (upload base64_data filename mime_type) "base64_data" fallback
  = base64_data
  ∧ upload_field (upload base64_data filename mime_type) "filename" fallback
    = filename
  ∧ upload_field (upload base64_data filename mime_type) "mime_type" fallback
    = mime_type.
Proof. unfold upload_field, upload. by simplify_map_eq. Qed.

(** X14. The upload entry the handler puts first in the context reaches
    every request the invoker sends with the payload, the MIME type and
    the file name of the marker, never with the invoker's defaults; with
    an empty payload the request carries no file. *)
Theorem server_upload_reaches_request httpx E agent_meta intent text custom_input
    base64_data filename mime_type others :
  let context := context_with (upload base64_data filename mime_type :: others) in
  ∀ d, d ∈ (call_agent httpx E agent_meta intent text context custom_input).1 →
    AgentRequest.input (body d)
    = JObj [("text", JStr text);
            ("metadata",
             JObj (if String.eqb base64_data "" then
                     [("language", JStr "en"); ("extra", JObj [])]
                   else
                     [("language", JStr "en"); ("extra", JObj []);
                      ("file_base64", JStr base64_data);
                      ("mime_type", JStr mime_type);
                      ("filename", JStr filename)]))].
Proof.
  cbv zeta. intros d Hd. apply call_agent_sent in Hd as [_ ->].
  do 3 f_equal. unfold build_metadata.
  cbn [context_with Context.file_uploads default id]. cbv zeta.
  destruct (upload_fields base64_data filename mime_type "") as (-> & _ & _).
  destruct (upload_fields base64_data filename mime_type "uploaded_file")
    as (_ & -> & _).
  destruct (upload_fields base64_data filename mime_type "application/octet-stream")
    as (_ & _ & ->).
  unfold str_truthy. by destruct (String.eqb base64_data "").
Qed.

#[global] Instance step_key_inj : Inj (=) (=) step_key.
Proof.
  intros a b H. unfold step_key in H.
  pose proof (strip_prefix_app "step_" (string_of_Z a)) as Ha.
  rewrite H, strip_prefix_app in Ha. injection Ha as Ha.
  pose proof (py_int_printed a) as Hp. rewrite <- Ha, py_int_printed in Hp.
  by injection Hp.
Qed.

(** X15. [intermediate_results] loses no ledger entry: distinct step ids
    give distinct keys [step_<id>], so the response under the key of an id
    is the ledger's response for that id, every key is the key of a ledger
    id, and the mapping has as many entries as the ledger. *)
Theorem intermediate_results_faithful (ledger : gmap Z AgentResponse.t) :
  (∀ sid, intermediate_results ledger !! step_key sid = ledger !! sid)
  ∧ (∀ key r, intermediate_results ledger !! key = Some r →
       ∃ sid, key = step_key sid ∧ ledger !! sid = Some r)
  ∧ size (intermediate_results ledger) = size ledger.
Proof.
  unfold intermediate_results. split_and!.
  - intros sid. apply (lookup_kmap step_key).
  - intros key r H. by apply (lookup_kmap_Some step_key) in H.
  - induction ledger as [|sid r ledger Hnone IH] using map_ind.
    + by rewrite kmap_empty, !map_size_empty.
    + rewrite kmap_insert by apply _.
      rewrite map_size_insert_None by (by rewrite (lookup_kmap step_key)).
      rewrite map_size_insert_None by done. by rewrite IH.
Qed.

(** ** The further properties on concrete runs *)

Lemma chain_success_appends_witness :
  ∃ st',
    run_step true raise_key_error env_success "q" full_registry plain_context
      0 initial_state (builder_step 1) = Ok st'
    ∧ UsedAgentEntry.name <$> used_agents st'
      = ["KnowledgeBaseBuilderAgent"; "task_dependency_agent"].
Proof.
  destruct (chain_success_appends true raise_key_error env_success "q"
              full_registry plain_context 0 initial_state (builder_step 1)
              builder_meta _ _ tda_meta eq_refl eq_refl eq_refl eq_refl)
    as (sent' & tda_response & _ & Hrun & _).
  eexists. split; [exact Hrun|reflexivity].
Defined.

Lemma no_trigger_no_chain_witness :
  execute_plan true raise_key_error env_first_down "q" full_registry plain_context
    [summary_step 1 "user_query"; summary_step 2 "step:1"]
  = execute_plan_no_chain true raise_key_error env_first_down "q" full_registry
      plain_context [summary_step 1 "user_query"; summary_step 2 "step:1"].
Proof.
  exact (proj2 (no_trigger_no_chain true raise_key_error env_first_down "q"
                  full_registry plain_context
                  [summary_step 1 "user_query"; summary_step 2 "step:1"] eq_refl)).
Defined.

Lemma no_trigger_ledger_keys_witness :
  ∃ ledger used,
    execute_plan true raise_key_error env_first_down "q" full_registry
      plain_context [summary_step 1 "user_query"; summary_step 2 "step:1"]
    = Ok (ledger, used)
    ∧ dom ledger = list_to_set [1; 2].
Proof.
  destruct (no_trigger_ledger_keys true raise_key_error env_first_down "q"
              full_registry plain_context
              [summary_step 1 "user_query"; summary_step 2 "step:1"]
              eq_refl full_registry_serves_summaries)
    as (ledger & used & Hrun & Hdom & _).
  by exists ledger, used.
Defined.

Lemma usage_log_bounds_witness :
  ∃ st,
    execute_plan_traced true raise_key_error env_first_down "q" full_registry
      plain_context [summary_step 1 "user_query"; summary_step 2 "step:1"]
    = Ok st
    ∧ (size (step_outputs st) ≤ length (used_agents st))%nat.
Proof.
  destruct (exec_steps_total true raise_key_error env_first_down "q" full_registry
              plain_context 0 [summary_step 1 "user_query"; summary_step 2 "step:1"]
              initial_state full_registry_serves_summaries) as (st & Hst & _).
  exists st. split; [exact Hst|].
  exact (proj1 (proj2 (usage_log_bounds true raise_key_error env_first_down "q"
                         full_registry plain_context _ st Hst))).
Defined.

Lemma ledger_keeps_every_step_id_witness :
  ∃ ledger used,
    execute_plan true raise_key_error env_first_down "q" full_registry
      plain_context [summary_step 1 "user_query"; summary_step 2 "step:1"]
    = Ok (ledger, used)
    ∧ is_Some (ledger !! 2).
Proof.
  destruct (exec_steps_total true raise_key_error env_first_down "q" full_registry
              plain_context 0 [summary_step 1 "user_query"; summary_step 2 "step:1"]
              initial_state full_registry_serves_summaries) as (st & Hst & _).
  assert (execute_plan true raise_key_error env_first_down "q" full_registry
            plain_context [summary_step 1 "user_query"; summary_step 2 "step:1"]
          = Ok (step_outputs st, used_agents st)) as Hrun.
  { unfold execute_plan, execute_plan_traced. by rewrite Hst. }
  exists (step_outputs st), (used_agents st). split; [exact Hrun|].
  apply (ledger_keeps_every_step_id true raise_key_error env_first_down "q"
           full_registry plain_context _ _ _ Hrun (summary_step 2 "step:1")).
  right. left.
Defined.

Lemma lookup_exception_aborts_witness :
  execute_plan true raise_key_error env_success "q" full_registry plain_context
    [ghost_step 1; summary_step 2 "user_query"]
  = Raise (KeyError "ghost_agent").
Proof.
  exact (proj1 (lookup_exception_aborts true raise_key_error env_success "q"
                  full_registry plain_context [] (ghost_step 1)
                  [summary_step 2 "user_query"] initial_state eq_refl)
           (KeyError "ghost_agent") eq_refl).
Defined.

Lemma every_request_carries_the_context_witness :
  ∃ st,
    execute_plan_traced true raise_key_error env_first_down "q" full_registry
      plain_context [summary_step 1 "user_query"; summary_step 2 "step:1"]
    = Ok st
    ∧ ∀ d, d ∈ wire st → AgentRequest.context (body d) = plain_context.
Proof.
  destruct (exec_steps_total true raise_key_error env_first_down "q" full_registry
              plain_context 0 [summary_step 1 "user_query"; summary_step 2 "step:1"]
              initial_state full_registry_serves_summaries) as (st & Hst & _).
  exists st. split; [exact Hst|]. intros d Hd.
  exact (proj1 (every_request_carries_the_context true raise_key_error
                  env_first_down "q" full_registry plain_context _ st Hst d Hd)).
Defined.

Lemma reference_to_failed_step_gets_query_witness :
  ∃ sent response,
    call_agent false (env_success (Primary 0)) (Some summarizer_meta) "summarize"
      "q" plain_context None = (sent, Ok response)
    ∧ resolve_input ("step:" +:+ string_of_Z 1) "q" (<[1 := response]> ∅) = Ok "q".
Proof.
  exact (reference_to_failed_step_gets_query false (env_success (Primary 0))
           summarizer_meta "summarize" "q" plain_context ∅ 1 "q"
           (λ _ _, eq_refl)).
Defined.

Lemma extract_base64_data_url_witness :
  extract_base64 ("data:application/pdf;" +:+ "base64," +:+ "JVBERi0x")
  = Ok "JVBERi0x".
Proof.
  exact (extract_base64_data_url "data:application/pdf;" "JVBERi0x" eq_refl eq_refl).
Defined.

Lemma server_upload_reaches_request_witness :
  AgentRequest.input
    (build_handshake "req-p0" summarizer_meta "summarize" "q"
       (context_with [upload "JVBERi0x" "report.pdf" "application/pdf"]))
  = JObj [("text", JStr "q");
          ("metadata",
           JObj [("language", JStr "en"); ("extra", JObj []);
                 ("file_base64", JStr "JVBERi0x");
                 ("mime_type", JStr "application/pdf");
                 ("filename", JStr "report.pdf")])].
Proof.
  refine (server_upload_reaches_request true (env_success (Primary 0))
            (Some summarizer_meta) "summarize" "q" None "JVBERi0x" "report.pdf"
            "application/pdf" []
            (mkDispatch "http://sum.local/handle" 15000
               (build_handshake "req-p0" summarizer_meta "summarize" "q"
                  (context_with [upload "JVBERi0x" "report.pdf" "application/pdf"])))
            _).
  apply list_elem_of_singleton. reflexivity.
Defined.
